(** * IDE Link Interceptor: the link classifier and rewriter of the content
      script, and the protocol registration helper

    The development embeds the functions of [extension/content.js] that
    decide what happens to a clicked link and that keep the selected
    protocol, and the functions of the registration helper, and proves the
    properties the specification states about them, followed by further
    properties of the same functions.

    Strings.  A JavaScript string is a sequence of 16-bit code units.  The
    program compares, slices and matches strings against ASCII literals
    only, so the embedding works with the code units below 256, written as
    Rocq's [string]; all string operations below are exact on that range. *)

From Stdlib Require Import String Ascii List Bool Arith ZArith Lia.
From stdpp Require Import base gmap strings.
Import ListNotations.

Local Open Scope string_scope.
Local Open Scope list_scope.

(** ** Strings of the host language *)

Module JS.

(** [s.startsWith(p)] *)
Fixpoint startsWith (s p : string) {struct p} : bool :=
  match p, s with
  | EmptyString, _ => true
  | String a p', String b s' => if Ascii.eqb a b then startsWith s' p' else false
  | String _ _, EmptyString => false
  end.

(** [s.includes(p)] *)
Fixpoint includes (s p : string) : bool :=
  startsWith s p ||
  match s with
  | EmptyString => false
  | String _ s' => includes s' p
  end.

(** [s.slice(n)] for [0 <= n] *)
Fixpoint slice (s : string) (n : nat) : string :=
  match n, s with
  | O, _ => s
  | S n', String _ s' => slice s' n'
  | S _, EmptyString => EmptyString
  end.

(** [s.slice(0, n)] for [0 <= n] *)
Fixpoint take (s : string) (n : nat) : string :=
  match n, s with
  | O, _ => EmptyString
  | S n', String c s' => String c (take s' n')
  | S _, EmptyString => EmptyString
  end.

(** [s.endsWith(p)] *)
Definition endsWith (s p : string) : bool :=
  (String.length p <=? String.length s)%nat &&
  String.eqb (slice s (String.length s - String.length p)) p.

Definition is_upper (c : ascii) : bool :=
  let n := nat_of_ascii c in
  ((65 <=? n) && (n <=? 90) || (192 <=? n) && (n <=? 222) && negb (n =? 215))%nat.

Definition lower_char (c : ascii) : ascii :=
  if is_upper c then ascii_of_nat (nat_of_ascii c + 32) else c.

(** [s.toLowerCase()] *)
Fixpoint toLowerCase (s : string) : string :=
  match s with
  | EmptyString => EmptyString
  | String c s' => String (lower_char c) (toLowerCase s')
  end.

(** [s.indexOf(c)] for a one-character needle; [-1] when absent *)
Fixpoint indexOf (s : string) (c : ascii) : Z :=
  match s with
  | EmptyString => (-1)%Z
  | String a s' =>
      if Ascii.eqb a c then 0%Z
      else let i := indexOf s' c in if (i <? 0)%Z then (-1)%Z else (i + 1)%Z
  end.

(** [s.lastIndexOf(c)] for a one-character needle; [-1] when absent *)
Fixpoint lastIndexOf (s : string) (c : ascii) : Z :=
  match s with
  | EmptyString => (-1)%Z
  | String a s' =>
      let i := lastIndexOf s' c in
      if (0 <=? i)%Z then (i + 1)%Z
      else if Ascii.eqb a c then 0%Z else (-1)%Z
  end.

(** [s.split(c).pop()]: what follows the last [c], all of [s] without one *)
Fixpoint split_pop (s : string) (c : ascii) : string :=
  match s with
  | EmptyString => EmptyString
  | String a s' =>
      if (0 <=? indexOf s' c)%Z then split_pop s' c
      else if Ascii.eqb a c then s' else s
  end.

(** [s.replace(p, r)] with a string pattern: the first occurrence only *)
Fixpoint replace (s p r : string) : string :=
  if startsWith s p then r +:+ slice s (String.length p)
  else match s with
       | EmptyString => EmptyString
       | String c s' => String c (replace s' p r)
       end.

(** Every character of [s] is in class [p] *)
Fixpoint every (p : ascii -> bool) (s : string) : bool :=
  match s with
  | EmptyString => true
  | String c s' => p c && every p s'
  end.


(** [s] is empty or starts with a character outside class [p] *)
Definition stops (p : ascii -> bool) (s : string) : bool :=
  match s with
  | EmptyString => true
  | String c _ => negb (p c)
  end.

(** Truthiness of a string value *)
Definition truthy (s : string) : bool := negb (String.eqb s "").

(** Completion of an evaluation: a value, or an exception on its way to
    the nearest enclosing handler. *)
Inductive completion (A : Type) : Type :=
| Normal (a : A)
| Throw (e : string).
Arguments Normal {A} a.
Arguments Throw {A} e.

Definition bind {A B} (c : completion A) (f : A -> completion B) : completion B :=
  match c with
  | Normal a => f a
  | Throw e => Throw e
  end.

(** [try { c } catch { h }] *)
Definition try_catch {A} (c : completion A) (h : string -> completion A) : completion A :=
  match c with
  | Normal a => Normal a
  | Throw e => h e
  end.

(** White space of [trim], among the code units below 256 *)
Definition is_space (c : ascii) : bool :=
  let n := nat_of_ascii c in
  ((9 <=? n) && (n <=? 13) || (n =? 32) || (n =? 160))%nat.

Fixpoint trimStart (s : string) : string :=
  match s with
  | String c s' => if is_space c then trimStart s' else s
  | EmptyString => EmptyString
  end.

Fixpoint trimEnd (s : string) : string :=
  match s with
  | EmptyString => EmptyString
  | String c s' =>
      match trimEnd s' with
      | EmptyString => if is_space c then EmptyString else String c EmptyString
      | t => String c t
      end
  end.

(** [s.trim()] *)
Definition trim (s : string) : string := trimEnd (trimStart s).

End JS.

#[global] Instance completion_ret : MRet JS.completion := @JS.Normal.
#[global] Instance completion_bind : MBind JS.completion := fun A B f c => JS.bind c f.

(** ** Regular expressions

    A backtracking matcher in continuation-passing style, with the priority
    order of the host language: alternatives left to right, quantifiers
    greedy.  Every pattern of the program starts with [^] and none has the
    [m] or [g] flag, so a match is always attempted at index 0 only; the
    patterns below are the parts after [^].  Capture groups carry their
    number. *)

Module RegExp.

Inductive re : Type :=
| Lit (l : string)                 (* the characters of [l] *)
| LitI (l : string)                (* the same under the [i] flag *)
| Star (p : ascii -> bool)         (* [c*] for a character class [c] *)
| Plus (p : ascii -> bool)         (* [c+] *)
| Seq (a b : re)
| Alt (a b : re)                   (* [a|b] *)
| Opt (a : re)                     (* [(?:a)?] *)
| Grp (n : nat) (a : re)           (* the [n]-th capture group *)
| Eos.                             (* [$] *)

Definition captures : Type := list (nat * string).
Definition cont : Type := string -> captures -> option captures.

(** [[^...]] *)
Definition none_of (cs : string) : ascii -> bool :=
  fun c => negb (JS.includes cs (String c EmptyString)).

(** [.]: any code unit that is not a line terminator *)
Definition dot : ascii -> bool := none_of (String "010" (String "013" EmptyString)).

Fixpoint lit_k (l : string) (k : cont) (s : string) (cs : captures) {struct l}
  : option captures :=
  match l, s with
  | EmptyString, _ => k s cs
  | String a l', String b s' => if Ascii.eqb a b then lit_k l' k s' cs else None
  | String _ _, EmptyString => None
  end.

Fixpoint liti_k (l : string) (k : cont) (s : string) (cs : captures) {struct l}
  : option captures :=
  match l, s with
  | EmptyString, _ => k s cs
  | String a l', String b s' =>
      if Ascii.eqb (JS.lower_char a) (JS.lower_char b) then liti_k l' k s' cs else None
  | String _ _, EmptyString => None
  end.

Fixpoint star_k (p : ascii -> bool) (k : cont) (s : string) (cs : captures) : option captures :=
  match s with
  | String c s' =>
      if p c then
        match star_k p k s' cs with
        | Some r => Some r
        | None => k s cs
        end
      else k s cs
  | EmptyString => k s cs
  end.

Definition plus_k (p : ascii -> bool) (k : cont) (s : string) (cs : captures) : option captures :=
  match s with
  | String c s' => if p c then star_k p k s' cs else None
  | EmptyString => None
  end.

(** The text consumed between input [s] and its suffix [s'] *)
Definition consumed (s s' : string) : string :=
  JS.take s (String.length s - String.length s').

Fixpoint run (r : re) (k : cont) (s : string) (cs : captures) : option captures :=
  match r with
  | Lit l => lit_k l k s cs
  | LitI l => liti_k l k s cs
  | Star p => star_k p k s cs
  | Plus p => plus_k p k s cs
  | Seq a b => run a (run b k) s cs
  | Alt a b =>
      match run a k s cs with
      | Some r => Some r
      | None => run b k s cs
      end
  | Opt a =>
      match run a k s cs with
      | Some r => Some r
      | None => k s cs
      end
  | Grp n a => run a (fun s' cs' => k s' ((n, consumed s s') :: cs')) s cs
  | Eos => match s with EmptyString => k s cs | String _ _ => None end
  end.

Definition accept : cont := fun _ cs => Some cs.

(** [s.match(/^r/)]: the capture groups of the match, [None] for [null] *)
Definition exec (r : re) (s : string) : option captures := run r accept s [].

(** [/^r/.test(s)] *)
Definition test (r : re) (s : string) : bool :=
  match exec r s with Some _ => true | None => false end.

(** [m[n]] of a match [m]: [None] for a group that took no part *)
Fixpoint group (n : nat) (cs : captures) : option string :=
  match cs with
  | [] => None
  | (i, g) :: cs' => if Nat.eqb i n then Some g else group n cs'
  end.

End RegExp.

Declare Scope re_scope.
Delimit Scope re_scope with re.
Infix ">>" := RegExp.Seq (at level 60, right associativity) : re_scope.

(** ** The web platform

    [new URL(...)], [decodeURIComponent] and [URLSearchParams] belong to the
    browser, not to the program.  The program's functions take them as a
    [Platform]; what they prove for every platform holds for the browser's.
    [browser] is an instance after the URL Standard and ECMAScript, used to
    run the functions on the specification's example inputs. *)

Module Web.

Record URL : Type := {
  protocol : string;                        (* scheme and [":"] *)
  hostname : string;
  pathname : string;
  search : string;                          (* [""], or ["?"] and the query *)
  searchParams : list (string * string)
}.

(** [params.get(name)]: the first value under [name], [None] for [null] *)
Fixpoint get (ps : list (string * string)) (name : string) : option string :=
  match ps with
  | [] => None
  | (n, v) :: ps' => if String.eqb n name then Some v else get ps' name
  end.

(** [params.set(name, value)]: replaces the first entry under [name] and
    drops the others, or appends *)
Fixpoint set (ps : list (string * string)) (name value : string) : list (string * string) :=
  match ps with
  | [] => [(name, value)]
  | (n, v) :: ps' =>
      if String.eqb n name
      then (n, value) :: filter (fun nv => negb (String.eqb (fst nv) name)) ps'
      else (n, v) :: set ps' name value
  end.

Record Platform : Type := {
  new_URL : string -> JS.completion URL;
  decodeURIComponent : string -> JS.completion string;
  URLSearchParams_toString : list (string * string) -> string
}.

(** *** An instance *)

Definition code (c : ascii) : nat := nat_of_ascii c.

Definition between (lo hi : nat) (c : ascii) : bool :=
  ((lo <=? code c) && (code c <=? hi))%nat.

Definition is_alpha (c : ascii) : bool := between 65 90 c || between 97 122 c.
Definition is_digit (c : ascii) : bool := between 48 57 c.

Definition hex_digit (n : nat) : ascii :=
  ascii_of_nat (if (n <? 10)%nat then 48 + n else 55 + n).

Definition hex_val (c : ascii) : option nat :=
  if is_digit c then Some (code c - 48)
  else if between 65 70 c then Some (code c - 55)
  else if between 97 102 c then Some (code c - 87)
  else None.

(** The octets of the UTF-8 encoding of a code unit below 256 *)
Definition utf8 (c : ascii) : list nat :=
  if (code c <? 128)%nat then [code c]
  else [192 + code c / 64; 128 + code c mod 64]%nat.

(** The application/x-www-form-urlencoded byte serializer *)
Definition form_byte (b : nat) : string :=
  let c := ascii_of_nat b in
  if (b =? 32)%nat then "+"
  else if is_alpha c || is_digit c || (b =? 42)%nat || (b =? 45)%nat
          || (b =? 46)%nat || (b =? 95)%nat
  then String c EmptyString
  else String "%" (String (hex_digit (b / 16)) (String (hex_digit (b mod 16)) EmptyString)).

Fixpoint form_encode (s : string) : string :=
  match s with
  | EmptyString => EmptyString
  | String c s' => String.concat "" (map form_byte (utf8 c)) +:+ form_encode s'
  end.

Fixpoint form_serialize (ps : list (string * string)) : string :=
  match ps with
  | [] => EmptyString
  | [(n, v)] => form_encode n +:+ "=" +:+ form_encode v
  | (n, v) :: ps' => form_encode n +:+ "=" +:+ form_encode v +:+ "&" +:+ form_serialize ps'
  end.

(** Percent-decoding to octets; [strict] refuses a ["%"] that does not
    start an escape (as [decodeURIComponent] does), otherwise it stands
    for itself (as in a query string, where ["+"] is a space). *)
Fixpoint octets (strict : bool) (s : string) : option (list nat) :=
  match s with
  | EmptyString => Some []
  | String c s' =>
      let rest := octets strict s' in
      let keep (n : nat) := option_map (cons n) rest in
      if Ascii.eqb c "%" then
        match s' with
        | String h (String l s'') =>
            match hex_val h, hex_val l with
            | Some a, Some b => option_map (cons (16 * a + b)%nat) (octets strict s'')
            | _, _ => if strict then None else keep (code c)
            end
        | _ => if strict then None else keep (code c)
        end
      else if negb strict && Ascii.eqb c "+" then keep 32%nat
      else match utf8 c with
           | [a; b] => option_map (fun r => a :: b :: r) rest
           | _ => keep (code c)
           end
  end.

(** UTF-8 decoding into code units below 256.  Sequences for code points
    from U+0100 on have no counterpart in the embedding; the instance is
    for inputs that escape none and reports them as malformed. *)
Fixpoint utf8_decode (bs : list nat) : option string :=
  match bs with
  | [] => Some EmptyString
  | a :: bs' =>
      if (a <? 128)%nat then option_map (String (ascii_of_nat a)) (utf8_decode bs')
      else match bs' with
           | b :: bs'' =>
               if ((194 <=? a) && (a <=? 195) && (128 <=? b) && (b <=? 191))%nat
               then option_map (String (ascii_of_nat ((a - 192) * 64 + (b - 128))))
                               (utf8_decode bs'')
               else None
           | [] => None
           end
  end.

Definition browser_decodeURIComponent (s : string) : JS.completion string :=
  match octets true s with
  | Some bs =>
      match utf8_decode bs with
      | Some r => JS.Normal r
      | None => JS.Throw "URIError: URI malformed"
      end
  | None => JS.Throw "URIError: URI malformed"
  end.

Definition form_decode (s : string) : string :=
  match octets false s with
  | Some bs => match utf8_decode bs with Some r => r | None => s end
  | None => s
  end.

(** [s] cut before its first character in class [p] *)
Fixpoint cut (p : ascii -> bool) (s : string) : string * string :=
  match s with
  | EmptyString => (EmptyString, EmptyString)
  | String c s' =>
      if p c then (EmptyString, s)
      else let (a, b) := cut p s' in (String c a, b)
  end.

Definition one_of (cs : string) : ascii -> bool :=
  fun c => JS.includes cs (String c EmptyString).

(** The query string as name-value pairs *)
Fixpoint parse_query (fuel : nat) (q : string) : list (string * string) :=
  match fuel with
  | O => []
  | S fuel' =>
      let (item, rest) := cut (one_of "&") q in
      let here :=
        if String.eqb item "" then []
        else let (n, v) := cut (one_of "=") item in [(form_decode n, form_decode (JS.slice v 1))] in
      match rest with
      | EmptyString => here
      | String _ rest' => here ++ parse_query fuel' rest'
      end
  end.

Fixpoint remove_chars (p : ascii -> bool) (s : string) : string :=
  match s with
  | EmptyString => EmptyString
  | String c s' => if p c then remove_chars p s' else String c (remove_chars p s')
  end.

Fixpoint trim_left (s : string) : string :=
  match s with
  | String c s' => if (code c <=? 32)%nat then trim_left s' else s
  | EmptyString => EmptyString
  end.

Fixpoint trim_right (s : string) : string :=
  match s with
  | EmptyString => EmptyString
  | String c s' =>
      match trim_right s' with
      | EmptyString => if (code c <=? 32)%nat then EmptyString else String c EmptyString
      | t => String c t
      end
  end.

Definition valid_scheme (s : string) : bool :=
  match s with
  | EmptyString => false
  | String c s' => is_alpha c && JS.every (fun d => is_alpha d || is_digit d || one_of "+-." d) s'
  end.

(** Host name of an authority: without credentials and port *)
Definition host_of (authority : string) : string :=
  let after_at :=
    if (0 <=? JS.lastIndexOf authority "@")%Z then JS.split_pop authority "@" else authority in
  fst (cut (one_of ":") after_at).

Definition special : list string := ["http"; "https"; "ws"; "wss"; "ftp"].

(** [new URL(input)] without a base, after the URL Standard's parser, for
    inputs it takes as they are: no dot segments, no backslashes, no
    characters it would percent-encode, an ASCII host name. *)
Definition browser_new_URL (input : string) : JS.completion URL :=
  let s := trim_right (trim_left (remove_chars (one_of (String "009" (String "010" (String "013" "")))) input)) in
  let (sch, after) := cut (one_of ":") s in
  if negb (valid_scheme sch) || String.eqb after "" then JS.Throw "TypeError: Invalid URL"
  else
    let scheme := JS.toLowerCase sch in
    let (no_fragment, _) := cut (one_of "#") (JS.slice after 1) in
    let (body, q) := cut (one_of "?") no_fragment in
    let query := JS.slice q 1 in
    let search := if String.eqb query "" then "" else "?" +:+ query in
    let params := parse_query (S (String.length query)) query in
    if existsb (String.eqb scheme) special then
      let (authority, path) := cut (one_of "/") (snd (cut (fun c => negb (one_of "/" c)) body)) in
      let host := JS.toLowerCase (host_of authority) in
      if String.eqb host "" then JS.Throw "TypeError: Invalid URL"
      else JS.Normal {| protocol := scheme +:+ ":"; hostname := host;
                        pathname := if String.eqb path "" then "/" else path;
                        search := search; searchParams := params |}
    else if JS.startsWith body "//" then
      let (authority, path) := cut (one_of "/") (JS.slice body 2) in
      JS.Normal {| protocol := scheme +:+ ":"; hostname := host_of authority;
                   pathname := path; search := search; searchParams := params |}
    else
      JS.Normal {| protocol := scheme +:+ ":"; hostname := "";
                   pathname := body; search := search; searchParams := params |}.

Definition browser : Platform := {|
  new_URL := browser_new_URL;
  decodeURIComponent := browser_decodeURIComponent;
  URLSearchParams_toString := form_serialize
|}.

End Web.

(** ** The content script ([extension/content.js]) *)

Module Content.
Import JS RegExp Web.
Local Open Scope re_scope.

Definition DEFAULT_PROTOCOL : string := "antigravity".

Definition SUPPORTED_PROTOCOLS : gset string :=
  {[ "vscode"; "vscode-insiders"; "antigravity"; "cursor"; "windsurf" ]}.

Definition VSCODE_PROTOCOLS : list string :=
  [ "vscode:"; "vscode-insiders:"; "antigravity:"; "cursor:"; "windsurf:"; "vscodium:" ].

Definition VSCODE_DEV_REDIRECT_PATTERNS : list string :=
  [ "vscode.dev/redirect"; "insiders.vscode.dev/redirect" ].

Definition VSCODE_EXTENSION_SCHEMES : gset string := {[ "vscode"; "vscode-insiders" ]}.

(** *** Objects used as tables

    [MCP_REPO_MAP] is an object literal, and [MCP_REPO_MAP[name]] a
    property read: a name the object does not have itself is looked up in
    [Object.prototype]. *)

Inductive value : Type :=
| Undefined
| Str (s : string)
| Inherited (key : string).        (* the member [key] of [Object.prototype] *)

Definition value_truthy (v : value) : bool :=
  match v with
  | Undefined => false
  | Str s => truthy s
  | Inherited _ => true
  end.

Definition Object_prototype : gset string :=
  {[ "constructor"; "hasOwnProperty"; "isPrototypeOf"; "propertyIsEnumerable";
     "toLocaleString"; "toString"; "valueOf"; "__proto__";
     "__defineGetter__"; "__defineSetter__"; "__lookupGetter__"; "__lookupSetter__" ]}.

(** [o[key]] for an object literal [o] with string members *)
Definition member (o : gmap string string) (key : string) : value :=
  match o !! key with
  | Some v => Str v
  | None => if bool_decide (key ∈ Object_prototype) then Inherited key else Undefined
  end.

Definition MCP_REPO_MAP : gmap string string :=
  {[ "huggingface" := "https://github.com/huggingface/hf-mcp-server";
     "hf-mcp-server" := "https://github.com/huggingface/hf-mcp-server" ]}.

(** *** Patterns *)

(** [/^([^:]+):\/\/([^/]+)\//] *)
Definition RE_PROVIDER_SLASHES : re :=
  Grp 1 (Plus (none_of ":")) >> Lit "://" >> Grp 2 (Plus (none_of "/")) >> Lit "/".

(** [/^([^:]+):([^/]+)\//] *)
Definition RE_PROVIDER_COLON : re :=
  Grp 1 (Plus (none_of ":")) >> Lit ":" >> Grp 2 (Plus (none_of "/")) >> Lit "/".

(** [/^(vscode|vscode-insiders):mcp\//] *)
Definition RE_MCP : re :=
  Grp 1 (Alt (Lit "vscode") (Lit "vscode-insiders")) >> Lit ":mcp/".

(** [/^(vscode|vscode-insiders):mcp\/by-name\/([^/?#]+)/] *)
Definition RE_MCP_BY_NAME : re :=
  Grp 1 (Alt (Lit "vscode") (Lit "vscode-insiders")) >> Lit ":mcp/by-name/"
  >> Grp 2 (Plus (none_of "/?#")).

(** [\/servers\/[^/]+\/([^/?#]+)], the end of the next pattern *)
Definition RE_SERVERS : re :=
  Lit "/servers/" >> Plus (none_of "/") >> Lit "/" >> Grp 2 (Plus (none_of "/?#")).

(** [/^(vscode|vscode-insiders):mcp\/api\.mcp\.github\.com.*\/servers\/[^/]+\/([^/?#]+)/] *)
Definition RE_MCP_API : re :=
  Grp 1 (Alt (Lit "vscode") (Lit "vscode-insiders")) >> Lit ":mcp/api.mcp.github.com"
  >> Star dot >> RE_SERVERS.

(** [/^\/api\/[^/]+\/[^/]+\/[^/]+\/file/] *)
Definition RE_OPENVSX_FILE : re :=
  Lit "/api/" >> Plus (none_of "/") >> Lit "/" >> Plus (none_of "/") >> Lit "/"
  >> Plus (none_of "/") >> Lit "/file".

(** [/^\/_apis\/public\/gallery\/publisher\/[^/]+\/extension\/[^/]+\/[^/]+\/assetbyname\//] *)
Definition RE_VSASSETS_FILE : re :=
  Lit "/_apis/public/gallery/publisher/" >> Plus (none_of "/") >> Lit "/extension/"
  >> Plus (none_of "/") >> Lit "/" >> Plus (none_of "/") >> Lit "/assetbyname/".

(** [/^\/_apis\/public\/gallery\/publishers\/[^/]+\/vsextensions\/[^/]+\/[^/]+\/vspackage$/] *)
Definition RE_MARKETPLACE_FILE : re :=
  Lit "/_apis/public/gallery/publishers/" >> Plus (none_of "/") >> Lit "/vsextensions/"
  >> Plus (none_of "/") >> Lit "/" >> Plus (none_of "/") >> Lit "/vspackage" >> Eos.

(** [/^\/[^/]+\/[^/]+\/releases\/download\/[^/]+\/.+\.vsix$/] *)
Definition RE_GITHUB_RELEASE : re :=
  Lit "/" >> Plus (none_of "/") >> Lit "/" >> Plus (none_of "/") >> Lit "/releases/download/"
  >> Plus (none_of "/") >> Lit "/" >> Plus dot >> Lit ".vsix" >> Eos.

(** [/^\/_apis\/public\/gallery\/publisher\/([^/]+)\/extension\/([^/]+)\/([^/]+)\/assetbyname\/.+$/] *)
Definition RE_VSASSETS_INFO : re :=
  Lit "/_apis/public/gallery/publisher/" >> Grp 1 (Plus (none_of "/")) >> Lit "/extension/"
  >> Grp 2 (Plus (none_of "/")) >> Lit "/" >> Grp 3 (Plus (none_of "/"))
  >> Lit "/assetbyname/" >> Plus dot >> Eos.

(** [/^\/_apis\/public\/gallery\/publishers\/([^/]+)\/vsextensions\/([^/]+)\/([^/]+)\/vspackage$/] *)
Definition RE_MARKETPLACE_INFO : re :=
  Lit "/_apis/public/gallery/publishers/" >> Grp 1 (Plus (none_of "/")) >> Lit "/vsextensions/"
  >> Grp 2 (Plus (none_of "/")) >> Lit "/" >> Grp 3 (Plus (none_of "/"))
  >> Lit "/vspackage" >> Eos.

(** [/^\/api\/([^/]+)\/([^/]+)\/([^/]+)\/file(?:\/([^/]+))?$/] *)
Definition RE_OPENVSX_INFO : re :=
  Lit "/api/" >> Grp 1 (Plus (none_of "/")) >> Lit "/" >> Grp 2 (Plus (none_of "/"))
  >> Lit "/" >> Grp 3 (Plus (none_of "/")) >> Lit "/file"
  >> Opt (Lit "/" >> Grp 4 (Plus (none_of "/"))) >> Eos.

(** [/^(.+)\.vsix$/i] *)
Definition RE_VSIX_NAME : re := Grp 1 (Plus dot) >> LitI ".vsix" >> Eos.

(** [/^([^:]+):(\/\/)?extension\/([^?#]+)/] *)
Definition RE_EXTENSION : re :=
  Grp 1 (Plus (none_of ":")) >> Lit ":" >> Opt (Grp 2 (Lit "//")) >> Lit "extension/"
  >> Grp 3 (Plus (none_of "?#")).

(** [m?.[n] || ''] *)
Definition group_or_empty (m : option captures) (n : nat) : string :=
  match m with
  | Some cs => match group n cs with Some g => g | None => "" end
  | None => ""
  end.


(** The schemes of MCP links, and the two shapes a server name is read
    from: [scheme:mcp/by-name/{name}] and
    [scheme:mcp/api.mcp.github.com.../servers/{id}/{name}] *)
Definition mcp_scheme (s : string) : Prop := s = "vscode" \/ s = "vscode-insiders".



(** *** Functions that need no platform *)

Definition isAuthCallbackUrl (url : string) : bool :=
  if negb (truthy url) then false
  else
    let match_ :=
      match exec RE_PROVIDER_SLASHES url with
      | Some m => Some m
      | None => exec RE_PROVIDER_COLON url
      end in
    let provider := toLowerCase (group_or_empty match_ 2) in
    includes provider "authentication".

Definition getProtocolPrefix (targetProtocol : string) : string :=
  if String.eqb targetProtocol "antigravity"
  then targetProtocol +:+ "://"
  else targetProtocol +:+ ":".

Definition isVSCodeUrl (url : string) : bool :=
  if negb (truthy url) then false
  else existsb (fun protocol => startsWith url protocol) VSCODE_PROTOCOLS.

Definition isVSCodeDevRedirectUrl (url : string) : bool :=
  if negb (truthy url) then false
  else existsb (fun pattern => includes url pattern) VSCODE_DEV_REDIRECT_PATTERNS.

Definition isMcpUrl (url : string) : bool :=
  if negb (truthy url) then false
  else test RE_MCP url.

Definition extractMcpServerName (url : string) : option string :=
  if negb (isMcpUrl url) then None
  else
    match exec RE_MCP_BY_NAME url with
    | Some byNameMatch => group 2 byNameMatch
    | None =>
        match exec RE_MCP_API url with
        | Some apiMatch => group 2 apiMatch
        | None => None
        end
    end.

Definition parseVSCodeExtensionId (url : string) : option string :=
  match exec RE_EXTENSION url with
  | None => None
  | Some match_ =>
      let scheme := group_or_empty (Some match_) 1 in
      if negb (bool_decide (scheme ∈ VSCODE_EXTENSION_SCHEMES)) then None
      else group 3 match_
  end.

(** The first protocol of [VSCODE_PROTOCOLS] that [url] starts with: the
    one at which the loop over the list returns *)
Definition sourceProtocol (url : string) : option string :=
  find (fun protocol => startsWith url protocol) VSCODE_PROTOCOLS.

Definition convertToTargetUrl (targetProtocol url : string) : string :=
  if isAuthCallbackUrl url then url
  else if startsWith url (targetProtocol +:+ ":") || startsWith url (targetProtocol +:+ "://")
  then url
  else
    match sourceProtocol url with
    | Some protocol =>
        let path := slice url (String.length protocol) in
        getProtocolPrefix targetProtocol +:+ path
    | None => url
    end.

Record ExtInfo : Type := {
  publisher : string;
  name : string;
  version : option string          (* [None] for [undefined] *)
}.

(** The Marketplace package link of the specification's example *)
Definition example_package_url : string :=
  "https://marketplace.visualstudio.com/_apis/public/gallery/publishers/ms-python/vsextensions/python/2024.1.0/vspackage".

(** *** Functions over the platform *)

Section WithPlatform.

Variable P : Platform.

(** The body of [isVsixUrl]'s [try] block *)
Definition isVsixUrl_try (url : string) : completion bool :=
  urlObj ← new_URL P url;
  if negb (String.eqb (protocol urlObj) "http:") && negb (String.eqb (protocol urlObj) "https:")
  then mret false
  else
    let hostname := toLowerCase (hostname urlObj) in
    let pathname := toLowerCase (pathname urlObj) in
    if endsWith pathname ".vsix" then mret true
    else if (String.eqb hostname "open-vsx.org" || endsWith hostname ".open-vsx.org")
            && test RE_OPENVSX_FILE pathname then mret true
    else if endsWith hostname ".gallery.vsassets.io"
            && test RE_VSASSETS_FILE pathname then mret true
    else if String.eqb hostname "marketplace.visualstudio.com"
            && test RE_MARKETPLACE_FILE pathname then mret true
    else if String.eqb hostname "github.com"
            && test RE_GITHUB_RELEASE pathname then mret true
    else mret false.

Definition isVsixUrl (url : string) : completion bool :=
  try_catch (isVsixUrl_try url) (fun _ => mret false).

Definition info_of (m : captures) : ExtInfo :=
  {| publisher := group_or_empty (Some m) 1;
     name := group_or_empty (Some m) 2;
     version := group 3 m |}.

(** The part of [parseExtensionFromVsixUrl] that reads the file name *)
Definition parseFilename (pathname : string) : option ExtInfo :=
  let filename := split_pop pathname "/" in
  if negb (truthy filename) then None
  else
    match exec RE_VSIX_NAME filename with
    | None => None
    | Some vsixMatch =>
        let baseName := group_or_empty (Some vsixMatch) 1 in
        let lastDash := lastIndexOf baseName "-" in
        let namePart := if (0 <? lastDash)%Z then take baseName (Z.to_nat lastDash) else baseName in
        let version := if (0 <? lastDash)%Z then Some (slice baseName (Z.to_nat (lastDash + 1))) else None in
        let dotIndex := indexOf namePart "." in
        if (0 <? dotIndex)%Z then
          Some {| publisher := take namePart (Z.to_nat dotIndex);
                  name := slice namePart (Z.to_nat (dotIndex + 1));
                  version := match version with
                             | Some v => if truthy v then Some v else None
                             | None => None
                             end |}
        else None
    end.

(** The body of [parseExtensionFromVsixUrl]'s [try] block *)
Definition parseExtensionFromVsixUrl_try (url : string) : completion (option ExtInfo) :=
  urlObj ← new_URL P url;
  let hostname := toLowerCase (hostname urlObj) in
  match (if endsWith hostname ".gallery.vsassets.io"
         then exec RE_VSASSETS_INFO (pathname urlObj) else None) with
  | Some vsAssetsMatch => mret (Some (info_of vsAssetsMatch))
  | None =>
      match (if String.eqb hostname "marketplace.visualstudio.com"
             then exec RE_MARKETPLACE_INFO (pathname urlObj) else None) with
      | Some marketplaceMatch => mret (Some (info_of marketplaceMatch))
      | None =>
          match exec RE_OPENVSX_INFO (pathname urlObj) with
          | Some openVsxMatch => mret (Some (info_of openVsxMatch))
          | None => mret (parseFilename (pathname urlObj))
          end
      end
  end.

Definition parseExtensionFromVsixUrl (url : string) : completion (option ExtInfo) :=
  try_catch (parseExtensionFromVsixUrl_try url) (fun _ => mret None).

Definition buildVsixInstallUrl (protocol vsixUrl : string) (extInfo : option ExtInfo) : string :=
  let params := [("url", vsixUrl)] in
  let params :=
    match extInfo with
    | Some i =>
        if truthy (publisher i) && truthy (name i)
        then Web.set params "name" (publisher i +:+ "." +:+ name i)
        else params
    | None => params
    end in
  let params :=
    match extInfo with
    | Some {| version := Some v |} => if truthy v then Web.set params "version" v else params
    | _ => params
    end in
  protocol +:+ "://extension/install?" +:+ URLSearchParams_toString P params.

(** The second format: the path after [/redirect] and the query *)
Definition convertRedirectPath (targetProtocol : string) (urlObj : URL) : string :=
  let path := replace (pathname urlObj) "/redirect" "" in
  let normalizedPath := if startsWith path "/" then slice path 1 else path in
  let queryString := search urlObj in
  getProtocolPrefix targetProtocol +:+ normalizedPath +:+ queryString.

(** The first format: the link in the [url] parameter *)
Definition convertUrlParam (targetProtocol urlParam : string) : completion (option string) :=
  decodedUrl ← decodeURIComponent P urlParam;
  if isAuthCallbackUrl decodedUrl then mret (Some decodedUrl)
  else
    match sourceProtocol decodedUrl with
    | Some protocol =>
        let path := slice decodedUrl (String.length protocol) in
        mret (Some (getProtocolPrefix targetProtocol +:+ path))
    | None =>
        if startsWith decodedUrl (targetProtocol +:+ ":")
           || startsWith decodedUrl (targetProtocol +:+ "://")
        then mret (Some decodedUrl)
        else mret (Some decodedUrl)
    end.

(** The body of [convertVSCodeDevToProtocol]'s [try] block *)
Definition convertVSCodeDevToProtocol_try (targetProtocol url : string)
  : completion (option string) :=
  urlObj ← new_URL P url;
  match Web.get (searchParams urlObj) "url" with
  | Some urlParam =>
      if truthy urlParam then convertUrlParam targetProtocol urlParam
      else mret (Some (convertRedirectPath targetProtocol urlObj))
  | None => mret (Some (convertRedirectPath targetProtocol urlObj))
  end.

Definition convertVSCodeDevToProtocol (targetProtocol url : string)
  : completion (option string) :=
  try_catch (convertVSCodeDevToProtocol_try targetProtocol url) (fun _ => mret None).

(** *** The click handler

    What [handleClick] does with the link it was given: its reads of
    [targetProtocol] are the parameter, the answer of the background
    script to [installExtension] is [reply]. *)

Inductive HostReply : Type :=
| ReplySuccess                       (* [response.success] holds *)
| ReplyError (error : string)        (* a response without [success] *)
| ReplyUndefined                     (* no response value *)
| ReplyRejected.                     (* [sendMessage] throws *)

Inductive Outcome : Type :=
| PassThrough                        (* returns with the event untouched *)
| Redirect (url : string)            (* default prevented, [window.location.href = url] *)
| Installed (extensionId : string)   (* default prevented, installed through the native host *)
| ShowInstructions (serverName : string) (repoUrl : value)
                                     (* default prevented, the call
                                        [showMcpInstructionModal(serverName, repoUrl)] *)
| Suppressed.                        (* default prevented, nothing else *)

(** The protocol URL both fallback branches build *)
Definition extensionProtocolUrl (targetProtocol extensionId : string) : string :=
  if String.eqb targetProtocol "antigravity"
  then "antigravity://" +:+ extensionId
  else getProtocolPrefix targetProtocol +:+ "extension/" +:+ extensionId.

Definition handleExtension (targetProtocol : string) (reply : HostReply)
    (href extensionId : string) : Outcome :=
  if bool_decide (targetProtocol ∈ VSCODE_EXTENSION_SCHEMES)
     && startsWith href (targetProtocol +:+ ":")
  then PassThrough
  else
    match reply with
    | ReplySuccess => Installed extensionId
    | ReplyError e =>
        if String.eqb e "Native Host not installed"
        then Redirect (extensionProtocolUrl targetProtocol extensionId)
        else Suppressed
    | ReplyUndefined => Suppressed
    | ReplyRejected => Redirect (extensionProtocolUrl targetProtocol extensionId)
    end.

(** The last part of the handler: plain protocol links *)
Definition handlePlain (targetProtocol href : string) : Outcome :=
  if negb (isVSCodeUrl href) then PassThrough
  else
    let targetUrl := convertToTargetUrl targetProtocol href in
    if String.eqb targetUrl href then PassThrough else Redirect targetUrl.

Definition handleMcp (targetProtocol href : string) : Outcome :=
  if String.eqb targetProtocol "antigravity" then
    match extractMcpServerName href with
    | Some serverName =>
        if truthy serverName then
          let repoUrl := member MCP_REPO_MAP serverName in
          if value_truthy repoUrl then ShowInstructions serverName repoUrl
          else Suppressed
        else handlePlain targetProtocol href
    | None => handlePlain targetProtocol href
    end
  else
    let mcpUrl := convertToTargetUrl targetProtocol href in
    if negb (String.eqb mcpUrl href) then Redirect mcpUrl
    else handlePlain targetProtocol href.

(** The handler after the extension link case *)
Definition handleOther (targetProtocol href : string) : completion Outcome :=
  if isVSCodeDevRedirectUrl href then
    targetUrl ← convertVSCodeDevToProtocol targetProtocol href;
    match targetUrl with
    | Some u => if truthy u then mret (Redirect u) else mret PassThrough
    | None => mret PassThrough
    end
  else
    vsix ← isVsixUrl href;
    if (vsix : bool) then
      extInfo ← parseExtensionFromVsixUrl href;
      mret (Redirect (buildVsixInstallUrl targetProtocol href extInfo))
    else if isMcpUrl href then mret (handleMcp targetProtocol href)
    else mret (handlePlain targetProtocol href).

Definition handleClick (targetProtocol : string) (reply : HostReply) (href : string)
  : completion Outcome :=
  if isAuthCallbackUrl href then mret PassThrough
  else
    match parseVSCodeExtensionId href with
    | Some extensionId =>
        if truthy extensionId
        then mret (handleExtension targetProtocol reply href extensionId)
        else handleOther targetProtocol href
    | None => handleOther targetProtocol href
    end.

End WithPlatform.

(** *** Settings

    The selected protocol is kept in [chrome.storage.sync] under
    [STORAGE_KEY], here with string values; the store may reject a read or
    a write.  [targetProtocol] is the variable of the content script. *)

Definition STORAGE_KEY : string := "selectedProtocol".

Record Storage : Type := {
  items : gmap string string;
  get_rejects : bool;
  set_rejects : bool
}.

(** [await chrome.storage.sync.get(key)], then [result[key]] *)
Definition storage_get (key : string) (st : Storage) : completion (option string) :=
  if get_rejects st then Throw "Error" else Normal (items st !! key).

(** [await chrome.storage.sync.set({ [key]: value })] *)
Definition storage_set (key value : string) (st : Storage) : completion Storage :=
  if set_rejects st then Throw "Error"
  else Normal {| items := <[key := value]> (items st);
                 get_rejects := get_rejects st; set_rejects := set_rejects st |}.

(** A store that answers and holds nothing *)
Definition empty_storage : Storage :=
  {| items := ∅; get_rejects := false; set_rejects := false |}.

(** [v || DEFAULT_PROTOCOL] *)
Definition or_default (v : option string) : string :=
  match v with
  | Some s => if truthy s then s else DEFAULT_PROTOCOL
  | None => DEFAULT_PROTOCOL
  end.

(** The body of [loadSettings]'s [try] block: the new [targetProtocol] and
    the store *)
Definition loadSettings_try (st : Storage) : completion (string * Storage) :=
  result ← storage_get STORAGE_KEY st;
  let protocol := or_default result in
  if negb (bool_decide (protocol ∈ SUPPORTED_PROTOCOLS)) then
    st' ← storage_set STORAGE_KEY DEFAULT_PROTOCOL st;
    mret (DEFAULT_PROTOCOL, st')
  else mret (protocol, st).

Definition loadSettings (st : Storage) : string * Storage :=
  match loadSettings_try st with
  | Normal r => r
  | Throw _ => (DEFAULT_PROTOCOL, st)
  end.

(** The listener of [listenForSettingsChanges]: [changes] gives the
    [newValue] of each changed key, [None] for a removed one. *)
Definition onChanged (changes : gmap string (option string)) (areaName : string)
    (targetProtocol : string) : string :=
  if String.eqb areaName "sync" then
    match changes !! STORAGE_KEY with
    | Some newValue =>
        let nextProtocol := or_default newValue in
        if bool_decide (nextProtocol ∈ SUPPORTED_PROTOCOLS) then nextProtocol
        else DEFAULT_PROTOCOL
    | None => targetProtocol
    end
  else targetProtocol.

(** The content script from [init] on: [loadSettings], then the change
    events as they arrive *)
Definition targetProtocol_after (st : Storage)
    (events : list (gmap string (option string) * string)) : string :=
  fold_left (fun targetProtocol e => onChanged (fst e) (snd e) targetProtocol)
            events (fst (loadSettings st)).

(** The popup's [getSelectedProtocol]: the protocol and the store *)
Definition getSelectedProtocol_try (st : Storage) : completion (string * Storage) :=
  result ← storage_get STORAGE_KEY st;
  let protocol := or_default result in
  if negb (bool_decide (protocol ∈ SUPPORTED_PROTOCOLS)) then
    st' ← storage_set STORAGE_KEY DEFAULT_PROTOCOL st;
    mret (DEFAULT_PROTOCOL, st')
  else mret (protocol, st).

Definition getSelectedProtocol (st : Storage) : string * Storage :=
  match getSelectedProtocol_try st with
  | Normal r => r
  | Throw _ => (DEFAULT_PROTOCOL, st)
  end.

(** The popup's [setSelectedProtocol] *)
Definition setSelectedProtocol (protocol : string) (st : Storage) : bool * Storage :=
  match storage_set STORAGE_KEY protocol st with
  | Normal st' => (true, st')
  | Throw _ => (false, st)
  end.

End Content.

(** ** The protocol registration helper ([scripts], Windows only)

    The helper reads the file system and edits the registry through
    PowerShell.  A [World] holds both, the key paths whose edits PowerShell
    refuses (with the text it prints), and the commands run so far. *)

Module Helper.
Import JS.

Inductive Command : Type :=
| SetDefault (keyPath value : string)          (* the script of [writeRegistry] *)
| SetProperty (keyPath name value : string).   (* [Set-ItemProperty -Name] *)

Record World : Type := {
  files : gset string;
  registry : gmap string (gmap string string);  (* key path, value name, data *)
  refused : gmap string string;
  executed : list Command
}.

Record Result : Type := { success : bool; error : option string }.

(** Computations on the world *)
Definition M (A : Type) : Type := World -> A * World.

#[global] Instance M_ret : MRet M := fun A a w => (a, w).
#[global] Instance M_bind : MBind M :=
  fun A B f m w => let (a, w') := m w in f a w'.

Definition exec (c : Command) : M unit :=
  fun w => (tt, {| files := files w; registry := registry w; refused := refused w;
                   executed := executed w ++ [c] |}).

Definition refusal (keyPath : string) : M (option string) :=
  fun w => (refused w !! keyPath, w).

Definition update (f : gmap string (gmap string string) -> gmap string (gmap string string)) : M unit :=
  fun w => (tt, {| files := files w; registry := f (registry w); refused := refused w;
                   executed := executed w |}).

(** [New-Item] when [Test-Path] fails *)
Definition ensure_key (keyPath : string) (r : gmap string (gmap string string)) :=
  match r !! keyPath with
  | Some _ => r
  | None => <[keyPath := ∅]> r
  end.

(** [Set-ItemProperty] *)
Definition set_value (keyPath name value : string) (r : gmap string (gmap string string)) :=
  match r !! keyPath with
  | Some vs => <[keyPath := <[name := value]> vs]> r
  | None => r
  end.

(** [s] between double quotes *)
Definition quoted (s : string) : string :=
  String "034" (s +:+ String "034" EmptyString).

Definition fileExists (filePath : string) : M bool :=
  fun w => (bool_decide (filePath ∈ files w), w).

Definition writeRegistry (keyPath value : string) : M Result :=
  let parentPath := take keyPath (Z.to_nat (lastIndexOf keyPath "\")) in
  _ ← exec (SetDefault keyPath value);
  denied ← refusal keyPath;
  match denied with
  | Some output => mret {| success := false; error := Some output |}
  | None =>
      _ ← update (fun r => set_value keyPath "(default)" value
                             (ensure_key keyPath (ensure_key parentPath r)));
      mret {| success := true; error := None |}
  end.

Definition registerProtocol (protocol execPath : string) : M Result :=
  found ← fileExists execPath;
  if negb found then
    mret {| success := false; error := Some ("Executable not found: " +:+ execPath) |}
  else
    let basePath := "HKCU:\Software\Classes\" +:+ protocol in
    descResult ← writeRegistry basePath ("URL:" +:+ protocol +:+ " Protocol");
    if negb (success descResult) then
      mret {| success := false;
              error := Some ("Failed to set description: " +:+ default "undefined" (error descResult)) |}
    else
      _ ← exec (SetProperty basePath "URL Protocol" "");
      denied ← refusal basePath;
      _ ← match denied with
          | Some _ => mret tt
          | None => update (set_value basePath "URL Protocol" "")
          end;
      let command := quoted execPath +:+ " " +:+ quoted "--open-url" +:+ " "
                     +:+ quoted "--" +:+ " " +:+ quoted "%1" in
      cmdResult ← writeRegistry (basePath +:+ "\shell\open\command") command;
      if negb (success cmdResult) then
        mret {| success := false;
                error := Some ("Failed to set command: " +:+ default "undefined" (error cmdResult)) |}
      else mret {| success := true; error := None |}.

(** The key paths and the values of [registerProtocol] *)
Definition basePath (protocol : string) : string := "HKCU:\Software\Classes\" +:+ protocol.

Definition commandPath (protocol : string) : string := basePath protocol +:+ "\shell\open\command".

Definition description (protocol : string) : string := "URL:" +:+ protocol +:+ " Protocol".

Definition command (execPath : string) : string :=
  quoted execPath +:+ " " +:+ quoted "--open-url" +:+ " " +:+ quoted "--" +:+ " " +:+ quoted "%1".

(** The registry after the script of [writeRegistry] went through *)
Definition written (keyPath value : string) (r : gmap string (gmap string string)) :=
  set_value keyPath "(default)" value
    (ensure_key keyPath (ensure_key (take keyPath (Z.to_nat (lastIndexOf keyPath "\"))) r)).

(** [w] with registry [r] after the further commands [cs] *)
Definition world_with (w : World) (r : gmap string (gmap string string)) (cs : list Command) : World :=
  {| files := files w; registry := r; refused := refused w; executed := executed w ++ cs |}.

(** A world with one IDE installed and nothing registered *)
Definition example_world : World :=
  {| files := {[ "C:\Program Files\Windsurf\Windsurf.exe" ]};
     registry := ∅; refused := ∅; executed := [] |}.

(** The same world where PowerShell refuses the edits of one key, with the
    text it prints *)
Definition refusing_world (keyPath output : string) : World :=
  {| files := files example_world; registry := ∅;
     refused := {[ keyPath := output ]}; executed := [] |}.

(** The world after the registration of that IDE *)
Definition registered_world : World :=
  snd (registerProtocol "windsurf" "C:\Program Files\Windsurf\Windsurf.exe" example_world).

(** *** Detection and automatic registration

    [LOCALAPPDATA] is the value of the environment variable as it enters
    the path strings, [unreadable] tells the key paths whose read through
    PowerShell fails.  Key paths are taken as they are written: the
    class-root view is a key of its own. *)

Section Environment.

Variable LOCALAPPDATA : string.
Variable unreadable : string -> bool.

Definition DEFAULT_IDE_PATHS : gmap string (list string) :=
  {[ "vscode" := [ LOCALAPPDATA +:+ "\Programs\Microsoft VS Code\Code.exe";
                   "C:\Program Files\Microsoft VS Code\Code.exe" ];
     "vscode-insiders" :=
       [ LOCALAPPDATA +:+ "\Programs\Microsoft VS Code Insiders\Code - Insiders.exe";
         "C:\Program Files\Microsoft VS Code Insiders\Code - Insiders.exe" ];
     "antigravity" := [ LOCALAPPDATA +:+ "\Programs\Antigravity\Antigravity.exe";
                        "C:\Program Files\Antigravity\Antigravity.exe";
                        "C:\Dev\bin\Antigravity.exe" ];
     "cursor" := [ LOCALAPPDATA +:+ "\Programs\Cursor\Cursor.exe";
                   LOCALAPPDATA +:+ "\cursor\Cursor.exe" ];
     "windsurf" := [ LOCALAPPDATA +:+ "\Programs\Windsurf\Windsurf.exe";
                     "C:\Program Files\Windsurf\Windsurf.exe" ] ]}.

(** The loop of [findIDEPath] over the candidate paths *)
Fixpoint firstExisting (paths : list string) : M (option string) :=
  match paths with
  | [] => mret None
  | p :: paths' =>
      found ← fileExists p;
      if (found : bool) then mret (Some p) else firstExisting paths'
  end.

(** [DEFAULT_IDE_PATHS[protocol]] is a property read: a name the table
    does not have is looked up in [Object.prototype], and what is found
    there cannot be iterated. *)
Definition findIDEPath (protocol : string) : M (completion (option string)) :=
  match DEFAULT_IDE_PATHS !! protocol with
  | Some paths => r ← firstExisting paths; mret (Normal r)
  | None =>
      if bool_decide (protocol ∈ Content.Object_prototype)
      then mret (Throw "TypeError: paths is not iterable")
      else mret (Normal None)
  end.

(** [readRegistry]: the default value of the key, trimmed; [None] for
    [null] *)
Definition readRegistry (keyPath : string) : M (option string) :=
  fun w =>
    (if unreadable keyPath then None
     else match registry w !! keyPath ≫= (fun vs => vs !! "(default)") with
          | Some stdout => let value := trim stdout in
                           if truthy value then Some value else None
          | None => None
          end, w).

Record Registration : Type := {
  registered : bool;
  execPath : option string;          (* [None] for [null] and for no field *)
  registryValue : option string
}.

(** The quote character [dq], and the pattern of [checkProtocolRegistration]:
    [dq], one or more characters other than [dq] as group 1, [dq] *)
Definition dq : string := String "034" EmptyString.

Definition RE_QUOTED : RegExp.re :=
  (RegExp.Lit dq >> RegExp.Grp 1 (RegExp.Plus (RegExp.none_of dq)) >> RegExp.Lit dq)%re.

(** The loop of [checkProtocolRegistration] over the registry paths *)
Fixpoint firstRegistered (registryPaths : list string) : M Registration :=
  match registryPaths with
  | [] => mret {| registered := false; execPath := None; registryValue := None |}
  | regPath :: registryPaths' =>
      value ← readRegistry regPath;
      match value with
      | Some v =>
          let match_ := RegExp.exec RE_QUOTED v in
          mret {| registered := true;
                  execPath := match_ ≫= RegExp.group 1;
                  registryValue := Some v |}
      | None => firstRegistered registryPaths'
      end
  end.

Definition checkProtocolRegistration (protocol : string) : M Registration :=
  firstRegistered
    [ "HKCU:\Software\Classes\" +:+ protocol +:+ "\shell\open\command";
      "Registry::HKEY_CLASSES_ROOT\" +:+ protocol +:+ "\shell\open\command" ].

Record AutoResult : Type := {
  auto_success : bool;
  auto_execPath : option string;
  alreadyRegistered : bool;
  auto_error : option string
}.

Definition autoRegisterProtocol (protocol : string) : M (completion AutoResult) :=
  status ← checkProtocolRegistration protocol;
  if registered status then
    mret (Normal {| auto_success := true; auto_execPath := execPath status;
                    alreadyRegistered := true; auto_error := None |})
  else
    found ← findIDEPath protocol;
    match found with
    | Throw e => mret (Throw e)
    | Normal None =>
        mret (Normal {| auto_success := false; auto_execPath := None;
                        alreadyRegistered := false;
                        auto_error := Some ("Cannot find " +:+ protocol +:+
                          " installation. Please install it first or specify the path manually.") |})
    | Normal (Some path) =>
        if negb (truthy path) then
          mret (Normal {| auto_success := false; auto_execPath := None;
                          alreadyRegistered := false;
                          auto_error := Some ("Cannot find " +:+ protocol +:+
                            " installation. Please install it first or specify the path manually.") |})
        else
          result ← registerProtocol protocol path;
          if success result then
            mret (Normal {| auto_success := true; auto_execPath := Some path;
                            alreadyRegistered := false; auto_error := None |})
          else
            mret (Normal {| auto_success := false; auto_execPath := None;
                            alreadyRegistered := false; auto_error := error result |})
    end.

End Environment.

End Helper.

(** * Properties *)

(** ** Strings *)

Module JSFacts.
#[local] Arguments String.append : simpl nomatch.
Import JS.

Lemma append_empty_r (s : string) : s +:+ "" = s.
Proof. induction s as [|c s IH]; simpl; [reflexivity | now rewrite IH]. Qed.

Lemma append_assoc (a b c : string) : (a +:+ b) +:+ c = a +:+ b +:+ c.
Proof. induction a as [|x a IH]; simpl; [reflexivity | now rewrite IH]. Qed.

Lemma length_append (a b : string) :
  String.length (a +:+ b) = String.length a + String.length b.
Proof. induction a as [|x a IH]; simpl; [reflexivity | now rewrite IH]. Qed.

Lemma startsWith_append (p s : string) : startsWith (p +:+ s) p = true.
Proof.
  induction p as [|c p IH]; simpl; [reflexivity|].
  now rewrite Ascii.eqb_refl.
Qed.

Lemma startsWith_split (p s : string) :
  startsWith s p = true -> exists r, s = p +:+ r.
Proof.
  revert s; induction p as [|c p IH]; intros s H; simpl in *.
  - now exists s.
  - destruct s as [|d s]; [discriminate|].
    destruct (Ascii.eqb_spec c d) as [->|]; [|discriminate].
    destruct (IH _ H) as [r ->]. now exists r.
Qed.

Lemma startsWith_shorter (p q s : string) :
  startsWith s (p +:+ q) = true -> startsWith s p = true.
Proof.
  revert s; induction p as [|c p IH]; intros s H; simpl in *; [reflexivity|].
  destruct s as [|d s]; [discriminate|].
  destruct (Ascii.eqb c d); [now apply IH | discriminate].
Qed.

Lemma slice_append (p s : string) : slice (p +:+ s) (String.length p) = s.
Proof. induction p as [|c p IH]; simpl; [now destruct s | exact IH]. Qed.

Lemma take_append (p s : string) : take (p +:+ s) (String.length p) = p.
Proof. induction p as [|c p IH]; simpl; [now destruct s | now rewrite IH]. Qed.


Lemma toLowerCase_append (a b : string) :
  toLowerCase (a +:+ b) = toLowerCase a +:+ toLowerCase b.
Proof. induction a as [|c a IH]; simpl; [reflexivity | now rewrite IH]. Qed.



Lemma truthy_nonempty (s : string) : s <> "" -> truthy s = true.
Proof. intros H. unfold truthy. now destruct s. Qed.

End JSFacts.

(** ** The matcher *)

Module RegExpFacts.
Import JS RegExp JSFacts.
#[local] Arguments String.append : simpl nomatch.

Lemma none_of_nil (c : ascii) : none_of "" c = true.
Proof. reflexivity. Qed.

Lemma none_of_cons (x : ascii) (cs : string) (c : ascii) :
  none_of (String x cs) c = negb (Ascii.eqb c x) && none_of cs c.
Proof.
  unfold none_of. simpl. destruct (Ascii.eqb c x); simpl; [now destruct cs | reflexivity].
Qed.

Lemma consumed_append (a b : string) : consumed (a +:+ b) b = a.
Proof.
  unfold consumed. rewrite length_append.
  replace (String.length a + String.length b - String.length b) with (String.length a) by lia.
  apply take_append.
Qed.

Section Continuations.

Variable k : cont.

Lemma lit_k_append (l s : string) (cs : captures) : lit_k l k (l +:+ s) cs = k s cs.
Proof.
  induction l as [|c l IH]; simpl; [now destruct s|].
  now rewrite Ascii.eqb_refl.
Qed.

Lemma lit_k_none (l s : string) (cs : captures) :
  startsWith s l = false -> lit_k l k s cs = None.
Proof.
  revert s; induction l as [|c l IH]; intros s H; simpl in *; [discriminate|].
  destruct s as [|d s]; [reflexivity|].
  destruct (Ascii.eqb c d); [now apply IH | reflexivity].
Qed.

Lemma lit_k_inv (l s : string) (cs r : captures) :
  lit_k l k s cs = Some r -> exists t, s = l +:+ t /\ k t cs = Some r.
Proof.
  revert s; induction l as [|c l IH]; intros s H; simpl in *.
  - now exists s.
  - destruct s as [|d s]; [discriminate|].
    destruct (Ascii.eqb_spec c d) as [->|]; [|discriminate].
    destruct (IH _ H) as (t & -> & Ht). now exists t.
Qed.

Variable p : ascii -> bool.

Lemma star_k_stop (s : string) (cs : captures) :
  stops p s = true -> star_k p k s cs = k s cs.
Proof.
  destruct s as [|c s]; simpl; [reflexivity|].
  intros H. apply negb_true_iff in H. now rewrite H.
Qed.

(** Greedy: a match of the rest after a longer run wins. *)
Lemma star_k_success (a b : string) (cs r : captures) :
  every p a = true -> star_k p k b cs = Some r -> star_k p k (a +:+ b) cs = Some r.
Proof.
  intros Ha Hb. induction a as [|c a IH]; simpl in *; [exact Hb|].
  apply andb_true_iff in Ha as [Hc Ha]. now rewrite Hc, (IH Ha).
Qed.

(** Where what follows cannot start inside the class, the run is the
    longest one and nothing is given back. *)
Lemma star_k_commit (a b : string) (cs : captures) :
  every p a = true -> stops p b = true ->
  (forall c t, p c = true -> k (String c t) cs = None) ->
  star_k p k (a +:+ b) cs = k b cs.
Proof.
  intros Ha Hb Hk. induction a as [|c a IH]; simpl in *.
  - now apply star_k_stop.
  - apply andb_true_iff in Ha as [Hc Ha]. rewrite Hc, (IH Ha).
    destruct (k b cs) eqn:E; [reflexivity|]. now apply Hk.
Qed.



Lemma star_k_inv (s : string) (cs r : captures) :
  star_k p k s cs = Some r ->
  exists a b, s = a +:+ b /\ every p a = true /\ k b cs = Some r.
Proof.
  induction s as [|c s IH]; simpl; intros H.
  - now exists "", "".
  - destruct (p c) eqn:Hc; [|now exists "", (String c s)].
    destruct (star_k p k s cs) eqn:E.
    + destruct (IH H) as (a & b & -> & Ha & Hb).
      exists (String c a), b. simpl. now rewrite Hc, Ha.
    + now exists "", (String c s).
Qed.

Lemma plus_k_success (a b : string) (cs r : captures) :
  a <> "" -> every p a = true -> stops p b = true -> k b cs = Some r ->
  plus_k p k (a +:+ b) cs = Some r.
Proof.
  intros Hne Ha Hb Hk. destruct a as [|c a]; [congruence|]. simpl in *.
  apply andb_true_iff in Ha as [Hc Ha]. rewrite Hc.
  apply star_k_success; [exact Ha|]. now rewrite star_k_stop.
Qed.

Lemma plus_k_commit (a b : string) (cs : captures) :
  a <> "" -> every p a = true -> stops p b = true ->
  (forall c t, p c = true -> k (String c t) cs = None) ->
  plus_k p k (a +:+ b) cs = k b cs.
Proof.
  intros Hne Ha Hb Hk. destruct a as [|c a]; [congruence|]. simpl in *.
  apply andb_true_iff in Ha as [Hc Ha]. rewrite Hc. now apply star_k_commit.
Qed.

Lemma plus_k_inv (s : string) (cs r : captures) :
  plus_k p k s cs = Some r ->
  exists a b, s = a +:+ b /\ a <> "" /\ every p a = true /\ k b cs = Some r.
Proof.
  destruct s as [|c s]; simpl; [discriminate|].
  destruct (p c) eqn:Hc; [|discriminate]. intros H.
  destruct (star_k_inv _ _ _ H) as (a & b & -> & Ha & Hb).
  exists (String c a), b. simpl. rewrite Hc, Ha. repeat split; congruence.
Qed.

End Continuations.

End RegExpFacts.

(** ** The content script *)

Module ContentFacts.
Import JS RegExp Web Content JSFacts RegExpFacts.
#[local] Arguments String.append : simpl nomatch.
#[local] Arguments Ascii.eqb : simpl never.

(** Comparisons of two character literals, evaluated *)
Ltac eqb_literals :=
  repeat match goal with
  | |- context [Ascii.eqb (Ascii ?a0 ?a1 ?a2 ?a3 ?a4 ?a5 ?a6 ?a7)
                          (Ascii ?b0 ?b1 ?b2 ?b3 ?b4 ?b5 ?b6 ?b7)] =>
      let t := constr:(Ascii.eqb (Ascii a0 a1 a2 a3 a4 a5 a6 a7)
                                 (Ascii b0 b1 b2 b3 b4 b5 b6 b7)) in
      let v := eval vm_compute in t in
      change t with v; cbv iota
  end.

Ltac literal := repeat (progress (simpl; eqb_literals)).

Lemma none_of_not (x c : ascii) : none_of (String x "") c = true -> Ascii.eqb x c = false.
Proof.
  rewrite none_of_cons, none_of_nil, andb_true_r, Ascii.eqb_sym.
  intros H. now apply negb_true_iff in H.
Qed.

(** *** The provider of a link *)

Lemma exec_provider_slashes (scheme host rest : string) :
  scheme <> "" -> every (none_of ":") scheme = true ->
  host <> "" -> every (none_of "/") host = true ->
  exec RE_PROVIDER_SLASHES (scheme +:+ "://" +:+ host +:+ "/" +:+ rest)
  = Some [(2, host); (1, scheme)].
Proof.
  intros Hs Hsc Hh Hhc. unfold exec, RE_PROVIDER_SLASHES. cbn [run].
  apply plus_k_success; [exact Hs | exact Hsc | reflexivity |].
  rewrite lit_k_append.
  apply plus_k_success; [exact Hh | exact Hhc | reflexivity |].
  now rewrite lit_k_append, !consumed_append.
Qed.

Lemma exec_provider_slashes_none (scheme host rest : string) :
  scheme <> "" -> every (none_of ":") scheme = true ->
  host <> "" -> every (none_of "/") host = true ->
  exec RE_PROVIDER_SLASHES (scheme +:+ ":" +:+ host +:+ "/" +:+ rest) = None.
Proof.
  intros Hs Hsc Hh Hhc. unfold exec, RE_PROVIDER_SLASHES. cbn [run].
  rewrite plus_k_commit; [| exact Hs | exact Hsc | reflexivity |].
  - destruct host as [|h host]; [congruence|]. simpl in Hhc.
    apply andb_true_iff in Hhc as [Hh' _]. apply none_of_not in Hh'.
    literal. now rewrite Hh'.
  - intros c t Hc. apply none_of_not in Hc. literal. now rewrite Hc.
Qed.

Lemma exec_provider_colon (scheme host rest : string) :
  scheme <> "" -> every (none_of ":") scheme = true ->
  host <> "" -> every (none_of "/") host = true ->
  exec RE_PROVIDER_COLON (scheme +:+ ":" +:+ host +:+ "/" +:+ rest)
  = Some [(2, host); (1, scheme)].
Proof.
  intros Hs Hsc Hh Hhc. unfold exec, RE_PROVIDER_COLON. cbn [run].
  apply plus_k_success; [exact Hs | exact Hsc | reflexivity |].
  rewrite lit_k_append.
  apply plus_k_success; [exact Hh | exact Hhc | reflexivity |].
  now rewrite lit_k_append, !consumed_append.
Qed.



Lemma append_nonempty (a b : string) : a <> "" -> a +:+ b <> "".
Proof. destruct a; [congruence | discriminate]. Qed.

(** The provider of [scheme://host/...] and of [scheme:host/...] is [host]. *)
Lemma isAuthCallbackUrl_provider (scheme delim host rest : string) :
  scheme <> "" -> every (none_of ":") scheme = true ->
  delim = "://" \/ delim = ":" ->
  host <> "" -> every (none_of "/") host = true ->
  isAuthCallbackUrl (scheme +:+ delim +:+ host +:+ "/" +:+ rest)
  = includes (toLowerCase host) "authentication".
Proof.
  intros Hs Hsc Hd Hh Hhc. unfold isAuthCallbackUrl.
  rewrite truthy_nonempty by now apply append_nonempty.
  destruct Hd as [-> | ->]; cbn [negb].
  - now rewrite exec_provider_slashes.
  - now rewrite exec_provider_slashes_none, exec_provider_colon.
Qed.

End ContentFacts.


(** Both patterns ask for a [/] after the provider: a link without one is
    not taken for an authentication callback, and is rewritten. *)
Example provider_needs_slash :
  Content.isAuthCallbackUrl "vscode://vscode.github-authentication?code=1" = false
  /\ Content.convertToTargetUrl "cursor" "vscode://vscode.github-authentication?code=1"
     = "cursor://vscode.github-authentication?code=1".
Proof. vm_compute. split; reflexivity. Qed.


Module ExtensionFacts.
Import JS RegExp Web Content JSFacts RegExpFacts.
Import ContentFacts.
#[local] Arguments String.append : simpl nomatch.
#[local] Arguments Ascii.eqb : simpl never.

Lemma consumed_whole (a : string) : consumed a "" = a.
Proof. rewrite <- (append_empty_r a) at 1. apply consumed_append. Qed.

Lemma plus_k_whole (k : cont) (p : ascii -> bool) (a : string) (cs r : captures) :
  a <> "" -> every p a = true -> k "" cs = Some r -> plus_k p k a cs = Some r.
Proof.
  intros Hne Ha Hk. rewrite <- (append_empty_r a).
  now apply plus_k_success.
Qed.

Lemma exec_extension (scheme id : string) :
  scheme <> "" -> every (none_of ":") scheme = true ->
  id <> "" -> every (none_of "?#") id = true ->
  exec RE_EXTENSION (scheme +:+ ":" +:+ "extension/" +:+ id) = Some [(3, id); (1, scheme)].
Proof.
  intros Hs Hsc Hi Hic. unfold exec, RE_EXTENSION. cbn [run].
  apply plus_k_success; [exact Hs | exact Hsc | reflexivity |].
  rewrite lit_k_append.
  replace (lit_k "//" _ ("extension/" +:+ id) _) with (@None captures) by now literal.
  rewrite lit_k_append.
  apply plus_k_whole; [exact Hi | exact Hic |].
  unfold accept. now rewrite consumed_whole, consumed_append.
Qed.

(** What the pattern captures as the identifier is never empty and holds
    neither [?] nor [#]. *)
Lemma exec_extension_inv (url : string) (m : captures) :
  exec RE_EXTENSION url = Some m ->
  exists scheme rest id,
    url = scheme +:+ ":" +:+ rest /\ every (none_of ":") scheme = true
    /\ group 1 m = Some scheme /\ group 3 m = Some id
    /\ id <> "" /\ every (none_of "?#") id = true.
Proof.
  unfold exec, RE_EXTENSION. cbn [run]. intros H.
  apply plus_k_inv in H as (scheme & b & -> & _ & Hscheme & H).
  apply lit_k_inv in H as (t & -> & H).
  rewrite consumed_append in H.
  assert (Hrest : forall cs, group 1 cs = Some scheme ->
            forall t', lit_k "extension/"
              (fun s' cs' => plus_k (none_of "?#")
                 (fun s'' cs'' => accept s'' ((3, consumed s' s'') :: cs'')) s' cs') t' cs = Some m ->
            group 1 m = Some scheme
            /\ exists id, group 3 m = Some id /\ id <> "" /\ every (none_of "?#") id = true).
  { intros cs Hg t' Hm.
    apply lit_k_inv in Hm as (u & -> & Hm).
    apply plus_k_inv in Hm as (id & rest & -> & Hne & Hid & Hm).
    unfold accept in Hm. injection Hm as <-. rewrite consumed_append.
    split; [simpl; now rewrite Hg | now exists id]. }
  assert (Hm : group 1 m = Some scheme
               /\ exists id, group 3 m = Some id /\ id <> "" /\ every (none_of "?#") id = true).
  { match type of H with
    | match ?first with _ => _ end = _ => destruct first as [m'|] eqn:E
    end.
    - injection H as ->.
      apply lit_k_inv in E as (t' & -> & E).
      eapply Hrest; [|exact E]. reflexivity.
    - eapply Hrest; [|exact H]. reflexivity. }
  destruct Hm as (Hg & id & Hid & Hne & Hc).
  now exists scheme, t, id.
Qed.

Lemma parseVSCodeExtensionId_inv (url id : string) :
  parseVSCodeExtensionId url = Some id ->
  exists scheme rest,
    scheme ∈ VSCODE_EXTENSION_SCHEMES /\ url = scheme +:+ ":" +:+ rest
    /\ id <> "" /\ every (none_of "?#") id = true.
Proof.
  unfold parseVSCodeExtensionId.
  destruct (exec RE_EXTENSION url) as [m|] eqn:E; [|discriminate].
  destruct (exec_extension_inv _ _ E) as (scheme & rest & id' & -> & _ & Hs & Hid & Hne & Hc).
  cbn [group_or_empty]. rewrite Hs.
  destruct (bool_decide (scheme ∈ VSCODE_EXTENSION_SCHEMES)) eqn:D; [|discriminate].
  apply bool_decide_eq_true_1 in D.
  cbn [negb]. rewrite Hid. intros [= <-]. now exists scheme, rest.
Qed.

Lemma parseVSCodeExtensionId_shape (url id : string) :
  parseVSCodeExtensionId url = Some id -> id <> "" /\ every (none_of "?#") id = true.
Proof.
  intros H. now destruct (parseVSCodeExtensionId_inv _ _ H) as (_ & _ & _ & _ & Hne & Hc).
Qed.

(** What stands before the first [:] of a string *)
Lemma before_colon (a b x y : string) :
  every (none_of ":") a = true -> every (none_of ":") b = true ->
  a +:+ ":" +:+ x = b +:+ ":" +:+ y -> a = b.
Proof.
  revert b. induction a as [|c a IH]; intros [|d b]; simpl; intros Ha Hb E.
  - reflexivity.
  - injection E as <- _. apply andb_true_iff in Hb as [Hd _]. discriminate.
  - injection E as -> _. apply andb_true_iff in Ha as [Hc _]. discriminate.
  - apply andb_true_iff in Ha as [_ Ha]. apply andb_true_iff in Hb as [_ Hb].
    injection E as -> E. f_equal. now apply IH.
Qed.

(** A link whose scheme is not an extension scheme is no extension link. *)
Lemma parseVSCodeExtensionId_scheme (scheme rest : string) :
  every (none_of ":") scheme = true -> scheme ∉ VSCODE_EXTENSION_SCHEMES ->
  parseVSCodeExtensionId (scheme +:+ ":" +:+ rest) = None.
Proof.
  intros Hc Hs.
  destruct (parseVSCodeExtensionId _) as [id|] eqn:E; [exfalso | reflexivity].
  unfold parseVSCodeExtensionId in E.
  destruct (exec RE_EXTENSION _) as [m|] eqn:X; [|discriminate].
  destruct (exec_extension_inv _ _ X) as (scheme' & rest' & _ & Hurl & Hc' & Hg & _).
  apply before_colon in Hurl; [subst scheme' | exact Hc | exact Hc'].
  cbn [group_or_empty] in E. rewrite Hg in E.
  now rewrite bool_decide_eq_false_2 in E.
Qed.

Lemma other_target (targetProtocol : string) :
  targetProtocol ∈ SUPPORTED_PROTOCOLS -> targetProtocol ∉ VSCODE_EXTENSION_SCHEMES ->
  targetProtocol = "antigravity" \/ targetProtocol = "cursor" \/ targetProtocol = "windsurf".
Proof.
  unfold SUPPORTED_PROTOCOLS, VSCODE_EXTENSION_SCHEMES.
  rewrite !elem_of_union, !elem_of_singleton. tauto.
Qed.

Lemma parse_extensionProtocolUrl_other (targetProtocol id : string) :
  targetProtocol ∈ SUPPORTED_PROTOCOLS -> targetProtocol ∉ VSCODE_EXTENSION_SCHEMES ->
  parseVSCodeExtensionId (extensionProtocolUrl targetProtocol id) = None.
Proof.
  intros Hin Hout.
  destruct (other_target _ Hin Hout) as [-> | [-> | ->]].
  - change (extensionProtocolUrl "antigravity" id)
      with ("antigravity" +:+ ":" +:+ "//" +:+ id).
    now apply parseVSCodeExtensionId_scheme.
  - change (extensionProtocolUrl "cursor" id)
      with ("cursor" +:+ ":" +:+ "extension/" +:+ id).
    now apply parseVSCodeExtensionId_scheme.
  - change (extensionProtocolUrl "windsurf" id)
      with ("windsurf" +:+ ":" +:+ "extension/" +:+ id).
    now apply parseVSCodeExtensionId_scheme.
Qed.

Lemma extension_scheme (targetProtocol : string) :
  targetProtocol ∈ VSCODE_EXTENSION_SCHEMES ->
  targetProtocol = "vscode" \/ targetProtocol = "vscode-insiders".
Proof. unfold VSCODE_EXTENSION_SCHEMES. set_solver. Qed.

Lemma parse_extensionProtocolUrl (targetProtocol id : string) :
  targetProtocol ∈ VSCODE_EXTENSION_SCHEMES ->
  id <> "" -> every (none_of "?#") id = true ->
  parseVSCodeExtensionId (extensionProtocolUrl targetProtocol id) = Some id.
Proof.
  intros Ht Hi Hic. unfold parseVSCodeExtensionId, extensionProtocolUrl, getProtocolPrefix.
  assert (Hna : String.eqb targetProtocol "antigravity" = false)
    by (destruct (extension_scheme _ Ht) as [-> | ->]; reflexivity).
  rewrite Hna, append_assoc, exec_extension; try assumption.
  - cbn [group_or_empty group Nat.eqb]. now rewrite bool_decide_eq_true_2.
  - destruct (extension_scheme _ Ht) as [-> | ->]; discriminate.
  - destruct (extension_scheme _ Ht) as [-> | ->]; reflexivity.
Qed.

End ExtensionFacts.

(** C2, as the program has it.  When the target protocol is one of the
    extension schemes ([vscode], [vscode-insiders]), the protocol URL the
    click handler falls back to for an extension link is again an extension
    link, with the identifier of the link it was built from; for the other
    supported targets the fallback URL is no extension link. *)
Theorem extension_fallback_roundtrip :
  (forall (P : Web.Platform) (targetProtocol : string) (reply : Content.HostReply)
          (href id u : string),
     targetProtocol ∈ Content.VSCODE_EXTENSION_SCHEMES ->
     Content.parseVSCodeExtensionId href = Some id ->
     Content.handleClick P targetProtocol reply href = JS.Normal (Content.Redirect u) ->
     u = Content.extensionProtocolUrl targetProtocol id
     /\ Content.parseVSCodeExtensionId u = Some id)
  /\ (forall (targetProtocol id : string),
        targetProtocol ∈ Content.SUPPORTED_PROTOCOLS ->
        targetProtocol ∉ Content.VSCODE_EXTENSION_SCHEMES ->
        Content.parseVSCodeExtensionId (Content.extensionProtocolUrl targetProtocol id) = None).
Proof.
  split; [|apply ExtensionFacts.parse_extensionProtocolUrl_other].
  intros P targetProtocol reply href id u Ht Hid Hclick.
  destruct (ExtensionFacts.parseVSCodeExtensionId_shape _ _ Hid) as [Hne Hc].
  assert (Hu : u = Content.extensionProtocolUrl targetProtocol id).
  { unfold Content.handleClick in Hclick.
    destruct (Content.isAuthCallbackUrl href); [discriminate|].
    rewrite Hid, (JSFacts.truthy_nonempty _ Hne) in Hclick.
    unfold Content.handleExtension in Hclick.
    destruct (_ && _); [discriminate|].
    destruct reply as [|e| |]; try discriminate.
    - destruct (String.eqb e _); [|discriminate]. now injection Hclick as <-.
    - now injection Hclick as <-. }
  split; [exact Hu|]. subst u.
  now apply ExtensionFacts.parse_extensionProtocolUrl.
Qed.

Lemma extension_fallback_roundtrip_witness :
  ("vscode:extension/ms-python.python" = Content.extensionProtocolUrl "vscode" "ms-python.python"
   /\ Content.parseVSCodeExtensionId "vscode:extension/ms-python.python" = Some "ms-python.python")
  /\ Content.parseVSCodeExtensionId (Content.extensionProtocolUrl "windsurf" "ms-python.python")
     = None.
Proof.
  destruct extension_fallback_roundtrip as [Hsame Hother].
  split.
  - apply (Hsame Web.browser "vscode" Content.ReplyRejected
             "vscode-insiders:extension/ms-python.python").
    + refine (bool_decide_unpack _ _). vm_compute. exact I.
    + vm_compute. reflexivity.
    + vm_compute. reflexivity.
  - apply Hother.
    + refine (bool_decide_unpack _ _). vm_compute. exact I.
    + refine (bool_decide_unpack _ _). vm_compute. exact I.
Defined.

(** C2 as stated fails: with [cursor] as the target the fallback URL has the
    scheme [cursor], which is not an extension scheme, and with
    [antigravity] it has no [extension/] part. *)
Lemma extension_fallback_roundtrip_counterexample :
  Content.parseVSCodeExtensionId "vscode:extension/ms-python.python" = Some "ms-python.python"
  /\ Content.handleClick Web.browser "cursor" Content.ReplyRejected
       "vscode:extension/ms-python.python"
     = JS.Normal (Content.Redirect "cursor:extension/ms-python.python")
  /\ Content.parseVSCodeExtensionId "cursor:extension/ms-python.python" = None
  /\ Content.handleClick Web.browser "antigravity" Content.ReplyRejected
       "vscode:extension/ms-python.python"
     = JS.Normal (Content.Redirect "antigravity://ms-python.python")
  /\ Content.parseVSCodeExtensionId "antigravity://ms-python.python" = None.
Proof. vm_compute. repeat split; reflexivity. Qed.

Module RewriteFacts.
Import JS RegExp Web Content JSFacts RegExpFacts.
Import ContentFacts.
#[local] Arguments String.append : simpl nomatch.
#[local] Arguments Ascii.eqb : simpl never.

Lemma getProtocolPrefix_shape (targetProtocol : string) :
  getProtocolPrefix targetProtocol
  = if String.eqb targetProtocol "antigravity" then "antigravity://" else targetProtocol +:+ ":".
Proof.
  unfold getProtocolPrefix.
  now destruct (String.eqb_spec targetProtocol "antigravity") as [-> | _].
Qed.

Lemma getProtocolPrefix_target (targetProtocol rest : string) :
  startsWith (getProtocolPrefix targetProtocol +:+ rest) (targetProtocol +:+ ":") = true.
Proof.
  unfold getProtocolPrefix. destruct (String.eqb targetProtocol "antigravity").
  - change "://" with (":" +:+ "//").
    rewrite <- (append_assoc targetProtocol), append_assoc. apply startsWith_append.
  - apply startsWith_append.
Qed.

(** No protocol of the list is the start of another: the loop stops at
    the protocol the link was written with. *)
Lemma sourceProtocol_append (src rest : string) :
  In src VSCODE_PROTOCOLS -> sourceProtocol (src +:+ rest) = Some src.
Proof.
  unfold VSCODE_PROTOCOLS, sourceProtocol. intros H.
  repeat (destruct H as [<- | H]; [now literal|]). destruct H.
Qed.

Lemma isVSCodeUrl_append (src rest : string) :
  In src VSCODE_PROTOCOLS -> isVSCodeUrl (src +:+ rest) = true.
Proof.
  unfold VSCODE_PROTOCOLS, isVSCodeUrl. intros H.
  repeat (destruct H as [<- | H]; [now literal|]). destruct H.
Qed.

Lemma isVSCodeUrl_inv (url : string) :
  isVSCodeUrl url = true -> exists src rest, In src VSCODE_PROTOCOLS /\ url = src +:+ rest.
Proof.
  unfold isVSCodeUrl. destruct (negb (truthy url)); [discriminate|].
  intros H. apply existsb_exists in H as (src & Hin & Hs).
  apply startsWith_split in Hs as [rest ->]. now exists src, rest.
Qed.

Lemma convertToTargetUrl_source (targetProtocol src rest : string) :
  In src VSCODE_PROTOCOLS ->
  isAuthCallbackUrl (src +:+ rest) = false ->
  startsWith (src +:+ rest) (targetProtocol +:+ ":") = false ->
  convertToTargetUrl targetProtocol (src +:+ rest) = getProtocolPrefix targetProtocol +:+ rest.
Proof.
  intros Hin Hauth Htarget. unfold convertToTargetUrl.
  rewrite Hauth, Htarget, (sourceProtocol_append _ _ Hin), slice_append.
  destruct (startsWith _ (targetProtocol +:+ "://")) eqn:E; [|reflexivity].
  change "://" with (":" +:+ "//") in E. rewrite <- append_assoc in E.
  apply startsWith_shorter in E. congruence.
Qed.

Lemma convertToTargetUrl_target (targetProtocol url : string) :
  startsWith url (targetProtocol +:+ ":") = true -> convertToTargetUrl targetProtocol url = url.
Proof.
  intros H. unfold convertToTargetUrl. rewrite H.
  now destruct (isAuthCallbackUrl url).
Qed.

Lemma convertToTargetUrl_cases (targetProtocol url : string) :
  convertToTargetUrl targetProtocol url = url
  \/ startsWith (convertToTargetUrl targetProtocol url) (targetProtocol +:+ ":") = true.
Proof.
  unfold convertToTargetUrl.
  destruct (isAuthCallbackUrl url); [now left|].
  destruct (_ || _); [now left|].
  destruct (sourceProtocol url); [right | now left].
  apply getProtocolPrefix_target.
Qed.

(** Rewriting what was rewritten changes nothing. *)
Lemma convertToTargetUrl_idempotent (targetProtocol url : string) :
  convertToTargetUrl targetProtocol (convertToTargetUrl targetProtocol url)
  = convertToTargetUrl targetProtocol url.
Proof.
  destruct (convertToTargetUrl_cases targetProtocol url) as [E | E].
  - rewrite E. exact E.
  - now apply convertToTargetUrl_target.
Qed.

End RewriteFacts.

(** C3.  A link written with one of the IDE protocols that is neither an
    authentication callback nor already in the target's scheme is rewritten
    to the target's prefix, [antigravity://] for [antigravity] and
    [target:] for every other target, followed by everything the link had
    after its own [scheme:], unchanged. *)
Theorem plain_protocol_rewrite (targetProtocol src rest : string) :
  In src Content.VSCODE_PROTOCOLS ->
  Content.isAuthCallbackUrl (src +:+ rest) = false ->
  JS.startsWith (src +:+ rest) (targetProtocol +:+ ":") = false ->
  let prefix :=
    if String.eqb targetProtocol "antigravity" then "antigravity://" else targetProtocol +:+ ":" in
  Content.isVSCodeUrl (src +:+ rest) = true
  /\ Content.getProtocolPrefix targetProtocol = prefix
  /\ Content.convertToTargetUrl targetProtocol (src +:+ rest) = prefix +:+ rest
  /\ Content.handlePlain targetProtocol (src +:+ rest) = Content.Redirect (prefix +:+ rest).
Proof.
  intros Hin Hauth Htarget prefix.
  assert (Hp : Content.getProtocolPrefix targetProtocol = prefix)
    by apply RewriteFacts.getProtocolPrefix_shape.
  assert (Hc : Content.convertToTargetUrl targetProtocol (src +:+ rest) = prefix +:+ rest)
    by (rewrite <- Hp; now apply RewriteFacts.convertToTargetUrl_source).
  repeat split; try assumption.
  - now apply RewriteFacts.isVSCodeUrl_append.
  - unfold Content.handlePlain.
    rewrite (RewriteFacts.isVSCodeUrl_append _ _ Hin), Hc. cbn [negb].
    destruct (String.eqb_spec (prefix +:+ rest) (src +:+ rest)) as [E|]; [|reflexivity].
    rewrite <- E, <- Hp, RewriteFacts.getProtocolPrefix_target in Htarget. discriminate.
Qed.

Lemma plain_protocol_rewrite_witness :
  Content.isVSCodeUrl "vscode://file/c:/work/a.txt" = true
  /\ Content.getProtocolPrefix "antigravity" = "antigravity://"
  /\ Content.convertToTargetUrl "antigravity" "vscode://file/c:/work/a.txt"
     = "antigravity:////file/c:/work/a.txt"
  /\ Content.handlePlain "antigravity" "vscode://file/c:/work/a.txt"
     = Content.Redirect "antigravity:////file/c:/work/a.txt".
Proof.
  apply (plain_protocol_rewrite "antigravity" "vscode:" "//file/c:/work/a.txt").
  - simpl. now left.
  - vm_compute. reflexivity.
  - vm_compute. reflexivity.
Defined.

(** C8.  A link that already starts with the target's scheme comes back from
    [convertToTargetUrl] as it went in, and the handler of plain protocol
    links leaves it alone, for every target protocol. *)
Theorem target_scheme_unchanged (targetProtocol url : string) :
  JS.startsWith url (targetProtocol +:+ ":") = true ->
  Content.convertToTargetUrl targetProtocol url = url
  /\ Content.handlePlain targetProtocol url = Content.PassThrough.
Proof.
  intros H.
  assert (Hc := RewriteFacts.convertToTargetUrl_target _ _ H).
  split; [exact Hc|].
  unfold Content.handlePlain. rewrite Hc, String.eqb_refl.
  now destruct (Content.isVSCodeUrl url).
Qed.

Lemma target_scheme_unchanged_witness :
  Content.convertToTargetUrl "cursor" "cursor://file/c:/work/a.txt" = "cursor://file/c:/work/a.txt"
  /\ Content.handlePlain "cursor" "cursor://file/c:/work/a.txt" = Content.PassThrough.
Proof.
  apply (target_scheme_unchanged "cursor" "cursor://file/c:/work/a.txt").
  vm_compute. reflexivity.
Defined.

Module McpFacts.
Import JS RegExp Web Content JSFacts RegExpFacts.
Import ContentFacts.
#[local] Arguments String.append : simpl nomatch.
#[local] Arguments Ascii.eqb : simpl never.
#[local] Arguments lit_k : simpl nomatch.
#[local] Arguments star_k : simpl nomatch.
#[local] Arguments plus_k : simpl nomatch.





(** *** Classification *)

Lemma isMcpUrl_scheme (s rest : string) :
  mcp_scheme s -> isMcpUrl (s +:+ ":mcp/" +:+ rest) = true.
Proof.
  unfold isMcpUrl, test, exec, RE_MCP. cbn [run].
  intros [-> | ->]; now literal.
Qed.

(** The scheme group, taken apart *)
Lemma scheme_group_inv (k : cont) (s : string) (cs r : captures) :
  run (Alt (Lit "vscode") (Lit "vscode-insiders")) k s cs = Some r ->
  exists sch t, mcp_scheme sch /\ s = sch +:+ t /\ k t cs = Some r.
Proof.
  cbn [run]. destruct (lit_k "vscode" k s cs) eqn:E.
  - intros [= ->]. apply lit_k_inv in E as (t & -> & E).
    exists "vscode", t. repeat split; [now left | exact E].
  - intros H. apply lit_k_inv in H as (t & -> & H).
    exists "vscode-insiders", t. repeat split; [now right | exact H].
Qed.

Lemma isMcpUrl_inv (url : string) :
  isMcpUrl url = true -> exists s rest, mcp_scheme s /\ url = s +:+ ":mcp/" +:+ rest.
Proof.
  unfold isMcpUrl, test, exec, RE_MCP.
  destruct (negb (truthy url)); [discriminate|].
  cbn [run]. intros H.
  match type of H with
  | match ?e with _ => _ end = _ => destruct e as [r|] eqn:E; [|discriminate]
  end.
  apply scheme_group_inv in E as (s & t & Hs & -> & E).
  apply lit_k_inv in E as (rest & -> & _). now exists s, rest.
Qed.

(** *** The server name *)


Lemma exec_by_name_none (s rest : string) :
  mcp_scheme s -> startsWith rest "by-name/" = false ->
  exec RE_MCP_BY_NAME (s +:+ ":mcp/" +:+ rest) = None.
Proof.
  intros Hs Hr. unfold exec, RE_MCP_BY_NAME. cbn [run].
  destruct Hs as [-> | ->]; literal; now rewrite lit_k_none.
Qed.






Lemma exec_api_none (s rest : string) :
  mcp_scheme s -> startsWith rest "api.mcp.github.com" = false ->
  exec RE_MCP_API (s +:+ ":mcp/" +:+ rest) = None.
Proof.
  intros Hs Hr. unfold exec, RE_MCP_API. cbn [run].
  destruct Hs as [-> | ->]; literal; now rewrite lit_k_none.
Qed.



Lemma extract_neither (s rest : string) :
  mcp_scheme s ->
  startsWith rest "by-name/" = false -> startsWith rest "api.mcp.github.com" = false ->
  extractMcpServerName (s +:+ ":mcp/" +:+ rest) = None.
Proof.
  intros Hs Hb Ha. unfold extractMcpServerName.
  rewrite isMcpUrl_scheme by exact Hs. cbn [negb].
  now rewrite exec_by_name_none, exec_api_none.
Qed.




End McpFacts.




(** C5, as the program has it.  For the Marketplace package link of the
    example and the target [antigravity], the extracted fields are
    publisher [ms-python], name [python], version [2024.1.0], and the
    handler redirects to the install URL whose [url] parameter is the link
    in application/x-www-form-urlencoded form, followed by
    [name=ms-python.python] and [version=2024.1.0]; without extracted
    fields the install URL has the [url] parameter only. *)
Theorem vsix_example :
  Content.isVsixUrl Web.browser Content.example_package_url = JS.Normal true
  /\ Content.parseExtensionFromVsixUrl Web.browser Content.example_package_url
     = JS.Normal (Some {| Content.publisher := "ms-python"; Content.name := "python";
                          Content.version := Some "2024.1.0" |})
  /\ (forall reply,
        Content.handleClick Web.browser "antigravity" reply Content.example_package_url
        = JS.Normal (Content.Redirect
            ("antigravity://extension/install?url="
             +:+ "https%3A%2F%2Fmarketplace.visualstudio.com%2F_apis%2Fpublic%2Fgallery%2Fpublishers%2Fms-python%2Fvsextensions%2Fpython%2F2024.1.0%2Fvspackage"
             +:+ "&name=ms-python.python&version=2024.1.0")))
  /\ Web.form_encode Content.example_package_url
     = "https%3A%2F%2Fmarketplace.visualstudio.com%2F_apis%2Fpublic%2Fgallery%2Fpublishers%2Fms-python%2Fvsextensions%2Fpython%2F2024.1.0%2Fvspackage"
  /\ (forall P protocol vsixUrl,
        Content.buildVsixInstallUrl P protocol vsixUrl None
        = protocol +:+ "://extension/install?"
          +:+ Web.URLSearchParams_toString P [("url", vsixUrl)]).
Proof.
  split; [|split; [|split; [|split]]].
  - vm_compute. reflexivity.
  - vm_compute. reflexivity.
  - intros reply. vm_compute. reflexivity.
  - vm_compute. reflexivity.
  - reflexivity.
Qed.

(** C5 as stated fails: the install URL does not carry the link as it is. *)
Lemma vsix_example_counterexample :
  Content.handleClick Web.browser "antigravity" Content.ReplyUndefined Content.example_package_url
  <> JS.Normal (Content.Redirect
       ("antigravity://extension/install?url=" +:+ Content.example_package_url
        +:+ "&name=ms-python.python&version=2024.1.0")).
Proof. vm_compute. discriminate. Qed.

(** C6.  The example holds: with [antigravity] as the target, the link
    [vscode:mcp/by-name/huggingface] is not rewritten, the handler shows
    the instructions with the repository of the table.  A name that is in
    neither the table nor [Object.prototype] gives nothing beyond the
    suppressed click. *)
Lemma mcp_example :
  (forall reply,
     Content.handleClick Web.browser "antigravity" reply "vscode:mcp/by-name/huggingface"
     = JS.Normal (Content.ShowInstructions "huggingface"
                    (Content.Str "https://github.com/huggingface/hf-mcp-server")))
  /\ (forall serverName,
        Content.MCP_REPO_MAP !! serverName = None ->
        serverName ∉ Content.Object_prototype ->
        Content.member Content.MCP_REPO_MAP serverName = Content.Undefined).
Proof.
  split.
  - intros reply. vm_compute. reflexivity.
  - intros serverName Hown Hproto. unfold Content.member. rewrite Hown.
    now rewrite bool_decide_eq_false_2.
Qed.

(** C6 at the failing input.  [constructor] is not a name of the table, yet
    the property read finds [Object.prototype.constructor], which is
    truthy, and the handler shows the instructions for it. *)
Theorem mcp_table_inherited_member :
  Content.MCP_REPO_MAP !! "constructor" = None
  /\ Content.extractMcpServerName "vscode:mcp/by-name/constructor" = Some "constructor"
  /\ (forall reply,
        Content.handleClick Web.browser "antigravity" reply "vscode:mcp/by-name/constructor"
        = JS.Normal (Content.ShowInstructions "constructor" (Content.Inherited "constructor"))).
Proof.
  split; [|split].
  - vm_compute. reflexivity.
  - vm_compute. reflexivity.
  - intros reply. vm_compute. reflexivity.
Qed.

(** C7.  For the redirect link of the example and the target [windsurf],
    the [url] parameter decodes to [vscode:extension/foo.bar], whose scheme
    is replaced: the handler redirects to [windsurf:extension/foo.bar]. *)
Theorem dev_redirect_example :
  (exists urlObj,
     Web.new_URL Web.browser "https://insiders.vscode.dev/redirect?url=vscode%3Aextension%2Ffoo.bar"
     = JS.Normal urlObj
     /\ Web.get (Web.searchParams urlObj) "url" = Some "vscode:extension/foo.bar")
  /\ Web.decodeURIComponent Web.browser "vscode%3Aextension%2Ffoo.bar"
     = JS.Normal "vscode:extension/foo.bar"
  /\ Content.convertVSCodeDevToProtocol Web.browser "windsurf"
       "https://insiders.vscode.dev/redirect?url=vscode%3Aextension%2Ffoo.bar"
     = JS.Normal (Some "windsurf:extension/foo.bar")
  /\ (forall reply,
        Content.handleClick Web.browser "windsurf" reply
          "https://insiders.vscode.dev/redirect?url=vscode%3Aextension%2Ffoo.bar"
        = JS.Normal (Content.Redirect "windsurf:extension/foo.bar")).
Proof.
  split; [|split; [|split]].
  - eexists. split; vm_compute; reflexivity.
  - vm_compute. reflexivity.
  - vm_compute. reflexivity.
  - intros reply. vm_compute. reflexivity.
Qed.

Module ThrowFacts.
Import JS RegExp Web Content JSFacts.

(** Extension links and MCP links are written with an IDE protocol. *)
Lemma extension_link_isVSCodeUrl (url id : string) :
  parseVSCodeExtensionId url = Some id -> isVSCodeUrl url = true.
Proof.
  intros H.
  destruct (ExtensionFacts.parseVSCodeExtensionId_inv _ _ H) as (scheme & rest & Hs & -> & _).
  rewrite <- append_assoc. apply RewriteFacts.isVSCodeUrl_append.
  destruct (ExtensionFacts.extension_scheme _ Hs) as [-> | ->]; simpl; tauto.
Qed.

Lemma mcp_link_isVSCodeUrl (url : string) : isMcpUrl url = true -> isVSCodeUrl url = true.
Proof.
  intros H. destruct (McpFacts.isMcpUrl_inv _ H) as (s & rest & Hs & ->).
  change (s +:+ ":mcp/" +:+ rest) with (s +:+ ":" +:+ "mcp/" +:+ rest).
  rewrite <- append_assoc. apply RewriteFacts.isVSCodeUrl_append.
  destruct Hs as [-> | ->]; simpl; tauto.
Qed.

Section WithPlatform.

Variable P : Platform.

Lemma try_catch_value {A} (c : completion A) (v : A) :
  exists a, try_catch c (fun _ => mret v) = Normal a.
Proof. destruct c as [a|e]; [now exists a | now exists v]. Qed.

Lemma isVsixUrl_value (url : string) : exists b, isVsixUrl P url = Normal b.
Proof. apply try_catch_value. Qed.

Lemma parseExtensionFromVsixUrl_value (url : string) :
  exists i, parseExtensionFromVsixUrl P url = Normal i.
Proof. apply try_catch_value. Qed.

Lemma convertVSCodeDevToProtocol_value (targetProtocol url : string) :
  exists u, convertVSCodeDevToProtocol P targetProtocol url = Normal u.
Proof. apply try_catch_value. Qed.

Lemma handleOther_value (targetProtocol url : string) :
  exists o, handleOther P targetProtocol url = Normal o.
Proof.
  unfold handleOther. destruct (isVSCodeDevRedirectUrl url).
  - destruct (convertVSCodeDevToProtocol_value targetProtocol url) as [[u|] ->]; simpl.
    + destruct (truthy u); eauto.
    + eauto.
  - destruct (isVsixUrl_value url) as [[|] ->]; simpl.
    + destruct (parseExtensionFromVsixUrl_value url) as [i ->]; simpl. eauto.
    + destruct (isMcpUrl url); eauto.
Qed.

Lemma handleClick_value (targetProtocol : string) (reply : HostReply) (url : string) :
  exists o, handleClick P targetProtocol reply url = Normal o.
Proof.
  unfold handleClick. destruct (isAuthCallbackUrl url); [eauto|].
  destruct (parseVSCodeExtensionId url) as [id|]; [|apply handleOther_value].
  destruct (truthy id); [eauto | apply handleOther_value].
Qed.

(** A link the platform cannot parse is no package link and no redirect
    link; the handler goes on to the cases that do not parse. *)
Lemma handleOther_unparseable (targetProtocol url e : string) :
  new_URL P url = Throw e ->
  handleOther P targetProtocol url
  = Normal (if isVSCodeDevRedirectUrl url then PassThrough
            else if isMcpUrl url then handleMcp targetProtocol url
            else handlePlain targetProtocol url).
Proof.
  intros H. unfold handleOther, convertVSCodeDevToProtocol, isVsixUrl.
  unfold convertVSCodeDevToProtocol_try, isVsixUrl_try. rewrite H. simpl.
  destruct (isVSCodeDevRedirectUrl url); [reflexivity|].
  now destruct (isMcpUrl url).
Qed.

(** Unparseable and not written with an IDE protocol: left alone. *)
Lemma handleClick_unparseable (targetProtocol : string) (reply : HostReply) (url e : string) :
  new_URL P url = Throw e -> isVSCodeUrl url = false ->
  handleClick P targetProtocol reply url = Normal PassThrough.
Proof.
  intros Hparse Hide. unfold handleClick.
  destruct (isAuthCallbackUrl url); [reflexivity|].
  destruct (parseVSCodeExtensionId url) as [id|] eqn:E.
  { apply extension_link_isVSCodeUrl in E. congruence. }
  rewrite (handleOther_unparseable _ _ _ Hparse).
  destruct (isVSCodeDevRedirectUrl url); [reflexivity|].
  destruct (isMcpUrl url) eqn:M.
  { apply mcp_link_isVSCodeUrl in M. congruence. }
  unfold handlePlain. now rewrite Hide.
Qed.

End WithPlatform.

End ThrowFacts.

(** C9.  On every platform and for every string, the classification
    functions that parse return a value: [isVsixUrl] a boolean,
    [parseExtensionFromVsixUrl] and [convertVSCodeDevToProtocol] a value or
    [null], and the click handler completes.  Where the platform refuses to
    parse the link they return [false], [null] and [null]; the handler then
    takes the link for neither a package link nor a redirect, and leaves it
    alone unless it is written with one of the IDE protocols, whose cases
    parse nothing.  A [url] parameter that cannot be decoded gives [null]
    as well. *)
Theorem classification_never_throws
    (P : Web.Platform) (targetProtocol : string) (reply : Content.HostReply) (url : string) :
  (exists b, Content.isVsixUrl P url = JS.Normal b)
  /\ (exists i, Content.parseExtensionFromVsixUrl P url = JS.Normal i)
  /\ (exists u, Content.convertVSCodeDevToProtocol P targetProtocol url = JS.Normal u)
  /\ (exists o, Content.handleClick P targetProtocol reply url = JS.Normal o)
  /\ (forall e, Web.new_URL P url = JS.Throw e ->
        Content.isVsixUrl P url = JS.Normal false
        /\ Content.parseExtensionFromVsixUrl P url = JS.Normal None
        /\ Content.convertVSCodeDevToProtocol P targetProtocol url = JS.Normal None
        /\ Content.handleOther P targetProtocol url
           = JS.Normal (if Content.isVSCodeDevRedirectUrl url then Content.PassThrough
                        else if Content.isMcpUrl url then Content.handleMcp targetProtocol url
                        else Content.handlePlain targetProtocol url)
        /\ (Content.isVSCodeUrl url = false ->
            Content.handleClick P targetProtocol reply url = JS.Normal Content.PassThrough))
  /\ (forall urlObj urlParam e,
        Web.new_URL P url = JS.Normal urlObj ->
        Web.get (Web.searchParams urlObj) "url" = Some urlParam ->
        JS.truthy urlParam = true ->
        Web.decodeURIComponent P urlParam = JS.Throw e ->
        Content.convertVSCodeDevToProtocol P targetProtocol url = JS.Normal None).
Proof.
  split; [apply ThrowFacts.isVsixUrl_value|].
  split; [apply ThrowFacts.parseExtensionFromVsixUrl_value|].
  split; [apply ThrowFacts.convertVSCodeDevToProtocol_value|].
  split; [apply ThrowFacts.handleClick_value|].
  split.
  - intros e H. split; [|split; [|split; [|split]]].
    + unfold Content.isVsixUrl, Content.isVsixUrl_try. now rewrite H.
    + unfold Content.parseExtensionFromVsixUrl, Content.parseExtensionFromVsixUrl_try.
      now rewrite H.
    + unfold Content.convertVSCodeDevToProtocol, Content.convertVSCodeDevToProtocol_try.
      now rewrite H.
    + now apply ThrowFacts.handleOther_unparseable with (e := e).
    + now apply ThrowFacts.handleClick_unparseable with (e := e).
  - intros urlObj urlParam e Hurl Hget Htruthy Hdecode.
    unfold Content.convertVSCodeDevToProtocol, Content.convertVSCodeDevToProtocol_try.
    rewrite Hurl. simpl. rewrite Hget, Htruthy.
    unfold Content.convertUrlParam. now rewrite Hdecode.
Qed.

Lemma classification_never_throws_witness :
  Content.isVsixUrl Web.browser "vscode.dev/redirect" = JS.Normal false
  /\ Content.parseExtensionFromVsixUrl Web.browser "vscode.dev/redirect" = JS.Normal None
  /\ Content.convertVSCodeDevToProtocol Web.browser "cursor" "vscode.dev/redirect" = JS.Normal None
  /\ Content.handleOther Web.browser "cursor" "vscode.dev/redirect" = JS.Normal Content.PassThrough
  /\ Content.handleClick Web.browser "cursor" Content.ReplyUndefined "vscode.dev/redirect"
     = JS.Normal Content.PassThrough
  /\ Content.convertVSCodeDevToProtocol Web.browser "cursor"
       "https://vscode.dev/redirect?url=100%25" = JS.Normal None.
Proof.
  destruct (classification_never_throws Web.browser "cursor" Content.ReplyUndefined
              "vscode.dev/redirect") as (_ & _ & _ & _ & Hparse & _).
  destruct (Hparse "TypeError: Invalid URL") as (H1 & H2 & H3 & H4 & H5);
    [vm_compute; reflexivity|].
  destruct (classification_never_throws Web.browser "cursor" Content.ReplyUndefined
              "https://vscode.dev/redirect?url=100%25") as (_ & _ & _ & _ & _ & Hdecode).
  split; [exact H1|]. split; [exact H2|]. split; [exact H3|]. split; [exact H4|].
  split; [apply H5; vm_compute; reflexivity|].
  eapply (Hdecode _ "100%" "URIError: URI malformed"); vm_compute; reflexivity.
Defined.

(** C10.  When the executable is not among the files, [registerProtocol]
    answers with [success: false] and the error naming it, and leaves the
    world as it was: no registry key is touched and no command is run. *)
Theorem register_missing_executable (protocol execPath : string) (w : Helper.World) :
  execPath ∉ Helper.files w ->
  Helper.fileExists execPath w = (false, w)
  /\ Helper.registerProtocol protocol execPath w
     = ({| Helper.success := false;
           Helper.error := Some ("Executable not found: " +:+ execPath) |}, w).
Proof.
  intros H.
  assert (Hf : Helper.fileExists execPath w = (false, w)).
  { unfold Helper.fileExists. now rewrite bool_decide_eq_false_2. }
  split; [exact Hf|].
  unfold Helper.registerProtocol, mbind, Helper.M_bind. now rewrite Hf.
Qed.

Lemma register_missing_executable_witness :
  Helper.fileExists "C:\Dev\bin\Antigravity.exe" Helper.example_world
  = (false, Helper.example_world)
  /\ Helper.registerProtocol "antigravity" "C:\Dev\bin\Antigravity.exe" Helper.example_world
     = ({| Helper.success := false;
           Helper.error := Some "Executable not found: C:\Dev\bin\Antigravity.exe" |},
        Helper.example_world).
Proof.
  apply (register_missing_executable "antigravity" "C:\Dev\bin\Antigravity.exe"
           Helper.example_world).
  refine (bool_decide_unpack _ _). vm_compute. exact I.
Defined.

(** With the executable in place the registry is written: the description,
    the scheme marker and the command, in this order. *)
Example register_existing_executable :
  fst (Helper.registerProtocol "windsurf" "C:\Program Files\Windsurf\Windsurf.exe"
         Helper.example_world)
  = {| Helper.success := true; Helper.error := None |}
  /\ Helper.executed
       (snd (Helper.registerProtocol "windsurf" "C:\Program Files\Windsurf\Windsurf.exe"
               Helper.example_world))
     = [ Helper.SetDefault "HKCU:\Software\Classes\windsurf" "URL:windsurf Protocol";
         Helper.SetProperty "HKCU:\Software\Classes\windsurf" "URL Protocol" "";
         Helper.SetDefault "HKCU:\Software\Classes\windsurf\shell\open\command"
           (Helper.quoted "C:\Program Files\Windsurf\Windsurf.exe" +:+ " "
            +:+ Helper.quoted "--open-url" +:+ " "
            +:+ Helper.quoted "--" +:+ " " +:+ Helper.quoted "%1") ].
Proof. vm_compute. split; reflexivity. Qed.

(** * Further properties *)

(** * Further properties of the content script *)

Module LinkFacts.
Import JS RegExp Web Content JSFacts RegExpFacts.
Import ContentFacts.
#[local] Arguments String.append : simpl nomatch.
#[local] Arguments Ascii.eqb : simpl never.

Lemma sourceProtocol_inv (url protocol : string) :
  sourceProtocol url = Some protocol ->
  In protocol VSCODE_PROTOCOLS /\ url = protocol +:+ slice url (String.length protocol).
Proof.
  unfold sourceProtocol. intros H. apply find_some in H as [Hin Hs]. split; [exact Hin|].
  apply startsWith_split in Hs as [rest ->]. now rewrite slice_append.
Qed.

Lemma exec_extension_tail (scheme sep id tail : string) :
  scheme <> "" -> every (none_of ":") scheme = true ->
  sep = "" \/ sep = "//" ->
  id <> "" -> every (none_of "?#") id = true -> stops (none_of "?#") tail = true ->
  exists m, exec RE_EXTENSION (scheme +:+ ":" +:+ sep +:+ "extension/" +:+ id +:+ tail) = Some m
            /\ group 1 m = Some scheme /\ group 3 m = Some id.
Proof.
  intros Hs Hsc Hsep Hi Hic Ht. unfold exec, RE_EXTENSION. cbn [run].
  assert (Hid : forall cs, plus_k (none_of "?#")
            (fun s' cs' => accept s' ((3, consumed (id +:+ tail) s') :: cs')) (id +:+ tail) cs
            = Some ((3, id) :: cs)).
  { intros cs. apply plus_k_success; [exact Hi | exact Hic | exact Ht |].
    unfold accept. now rewrite consumed_append. }
  destruct Hsep as [-> | ->].
  - exists [(3, id); (1, scheme)]. split; [|split; reflexivity].
    apply plus_k_success; [exact Hs | exact Hsc | reflexivity |].
    rewrite lit_k_append.
    change ("" +:+ "extension/" +:+ id +:+ tail) with ("extension/" +:+ id +:+ tail).
    replace (lit_k "//" _ ("extension/" +:+ id +:+ tail) _) with (@None captures) by now literal.
    now rewrite lit_k_append, Hid, consumed_append.
  - exists [(3, id); (2, "//"); (1, scheme)]. split; [|split; reflexivity].
    apply plus_k_success; [exact Hs | exact Hsc | reflexivity |].
    rewrite lit_k_append, lit_k_append, lit_k_append, Hid.
    now rewrite !consumed_append.
Qed.

End LinkFacts.

(** X1.  Rewriting is idempotent: what [convertToTargetUrl] returns, it
    returns unchanged when given it again, for every link and target. *)
Theorem convertToTargetUrl_twice (targetProtocol url : string) :
  Content.convertToTargetUrl targetProtocol (Content.convertToTargetUrl targetProtocol url)
  = Content.convertToTargetUrl targetProtocol url.
Proof. apply RewriteFacts.convertToTargetUrl_idempotent. Qed.

(** X2.  [convertToTargetUrl] changes a link only if the link starts with
    one of the six IDE prefixes, is no authentication callback and is not
    in the target's scheme already; what it then returns is the target's
    prefix followed by what the link had after its own prefix. *)
Theorem convertToTargetUrl_changed (targetProtocol url : string) :
  Content.convertToTargetUrl targetProtocol url <> url ->
  exists src rest,
    In src Content.VSCODE_PROTOCOLS /\ url = src +:+ rest
    /\ Content.isAuthCallbackUrl url = false
    /\ JS.startsWith url (targetProtocol +:+ ":") = false
    /\ Content.convertToTargetUrl targetProtocol url
       = Content.getProtocolPrefix targetProtocol +:+ rest.
Proof.
  unfold Content.convertToTargetUrl.
  destruct (Content.isAuthCallbackUrl url); [congruence|].
  destruct (JS.startsWith url (targetProtocol +:+ ":")) eqn:Ht; [simpl; congruence|].
  destruct (_ || _); [congruence|].
  destruct (Content.sourceProtocol url) as [protocol|] eqn:Hs; [|congruence].
  intros _. destruct (LinkFacts.sourceProtocol_inv _ _ Hs) as [Hin Hurl].
  exists protocol, (JS.slice url (String.length protocol)). now repeat split.
Qed.

Lemma convertToTargetUrl_changed_witness :
  exists src rest,
    In src Content.VSCODE_PROTOCOLS /\ "vscode-insiders:mcp/install?x=1" = src +:+ rest
    /\ Content.isAuthCallbackUrl "vscode-insiders:mcp/install?x=1" = false
    /\ JS.startsWith "vscode-insiders:mcp/install?x=1" ("windsurf" +:+ ":") = false
    /\ Content.convertToTargetUrl "windsurf" "vscode-insiders:mcp/install?x=1"
       = Content.getProtocolPrefix "windsurf" +:+ rest.
Proof.
  apply (convertToTargetUrl_changed "windsurf" "vscode-insiders:mcp/install?x=1").
  vm_compute. discriminate.
Defined.

(** X3.  [parseVSCodeExtensionId] returns the identifier of
    [scheme:extension/id] and of [scheme://extension/id] for the schemes
    [vscode] and [vscode-insiders], without the query or fragment that
    follows it; and whatever it returns is not empty, holds no [?] and no
    [#], and comes from a link in one of these two schemes. *)
Theorem parseVSCodeExtensionId_spec :
  (forall scheme sep id tail,
     scheme ∈ Content.VSCODE_EXTENSION_SCHEMES ->
     sep = "" \/ sep = "//" ->
     id <> "" -> JS.every (RegExp.none_of "?#") id = true ->
     JS.stops (RegExp.none_of "?#") tail = true ->
     Content.parseVSCodeExtensionId (scheme +:+ ":" +:+ sep +:+ "extension/" +:+ id +:+ tail)
     = Some id)
  /\ (forall url id,
        Content.parseVSCodeExtensionId url = Some id ->
        exists scheme rest,
          scheme ∈ Content.VSCODE_EXTENSION_SCHEMES /\ url = scheme +:+ ":" +:+ rest
          /\ id <> "" /\ JS.every (RegExp.none_of "?#") id = true).
Proof.
  split; [|apply ExtensionFacts.parseVSCodeExtensionId_inv].
  intros scheme sep id tail Hs Hsep Hi Hic Ht.
  assert (Hscheme : scheme <> "" /\ JS.every (RegExp.none_of ":") scheme = true)
    by (destruct (ExtensionFacts.extension_scheme _ Hs) as [-> | ->]; split;
        discriminate || reflexivity).
  destruct Hscheme as [Hne Hc].
  destruct (LinkFacts.exec_extension_tail scheme sep id tail Hne Hc Hsep Hi Hic Ht)
    as (m & Hm & H1 & H3).
  unfold Content.parseVSCodeExtensionId. rewrite Hm.
  cbn [Content.group_or_empty]. rewrite H1, H3.
  now rewrite bool_decide_eq_true_2.
Qed.

Lemma parseVSCodeExtensionId_spec_witness :
  Content.parseVSCodeExtensionId "vscode-insiders://extension/ms-python.python?referrer=web#top"
  = Some "ms-python.python"
  /\ exists scheme rest,
       scheme ∈ Content.VSCODE_EXTENSION_SCHEMES
       /\ "vscode:extension/foo.bar" = scheme +:+ ":" +:+ rest
       /\ "foo.bar" <> "" /\ JS.every (RegExp.none_of "?#") "foo.bar" = true.
Proof.
  destruct parseVSCodeExtensionId_spec as [Hsome Hinv]. split.
  - apply (Hsome "vscode-insiders" "//" "ms-python.python" "?referrer=web#top").
    + refine (bool_decide_unpack _ _). vm_compute. exact I.
    + now right.
    + discriminate.
    + reflexivity.
    + reflexivity.
  - apply Hinv. vm_compute. reflexivity.
Defined.

Module SettingsFacts.
Import JS Content.

Lemma default_supported : DEFAULT_PROTOCOL ∈ SUPPORTED_PROTOCOLS.
Proof. refine (bool_decide_unpack _ _). vm_compute. exact I. Qed.

Lemma supported_cases (p : string) :
  p ∈ SUPPORTED_PROTOCOLS ->
  p = "vscode" \/ p = "vscode-insiders" \/ p = "antigravity" \/ p = "cursor" \/ p = "windsurf".
Proof.
  unfold SUPPORTED_PROTOCOLS. rewrite !elem_of_union, !elem_of_singleton. tauto.
Qed.

Lemma supported_truthy (p : string) : p ∈ SUPPORTED_PROTOCOLS -> truthy p = true.
Proof. intros H. destruct (supported_cases _ H) as [-> | [-> | [-> | [-> | ->]]]]; reflexivity. Qed.

Lemma or_default_supported (p : string) :
  p ∈ SUPPORTED_PROTOCOLS -> or_default (Some p) = p.
Proof. intros H. unfold or_default. now rewrite supported_truthy. Qed.

(** The three ways [loadSettings] ends *)
Lemma loadSettings_cases (st : Storage) :
  (loadSettings st = (DEFAULT_PROTOCOL, st))
  \/ (exists p, p ∈ SUPPORTED_PROTOCOLS /\ get_rejects st = false
                /\ items st !! STORAGE_KEY = Some p /\ loadSettings st = (p, st))
  \/ (exists v, items st !! STORAGE_KEY = Some v /\ truthy v = true
                /\ (v ∉ SUPPORTED_PROTOCOLS)
                /\ get_rejects st = false /\ set_rejects st = false
                /\ loadSettings st
                   = (DEFAULT_PROTOCOL,
                      {| items := <[STORAGE_KEY := DEFAULT_PROTOCOL]> (items st);
                         get_rejects := false; set_rejects := false |})).
Proof.
  unfold loadSettings, loadSettings_try, storage_get, storage_set.
  destruct (get_rejects st) eqn:G; [now left|]. simpl.
  destruct (bool_decide (or_default _ ∈ SUPPORTED_PROTOCOLS)) eqn:D; simpl.
  - apply bool_decide_eq_true_1 in D.
    unfold or_default in *. destruct (items st !! STORAGE_KEY) as [v|] eqn:L; [|now left].
    destruct (truthy v) eqn:T; [|now left].
    right. left. now exists v.
  - apply bool_decide_eq_false_1 in D.
    unfold or_default in *. destruct (items st !! STORAGE_KEY) as [v|] eqn:L;
      [|destruct D; apply default_supported].
    destruct (truthy v) eqn:T; [|destruct D; apply default_supported].
    destruct (set_rejects st) eqn:S; simpl; [now left|].
    right. right. now exists v.
Qed.

Lemma loadSettings_supported (st : Storage) : fst (loadSettings st) ∈ SUPPORTED_PROTOCOLS.
Proof.
  destruct (loadSettings_cases st) as [-> | [(p & Hp & _ & _ & ->) | (v & _ & _ & _ & _ & _ & ->)]];
    simpl; auto using default_supported.
Qed.

Lemma onChanged_supported (changes : gmap string (option string)) (areaName t : string) :
  t ∈ SUPPORTED_PROTOCOLS -> onChanged changes areaName t ∈ SUPPORTED_PROTOCOLS.
Proof.
  intros Ht. unfold onChanged.
  destruct (String.eqb areaName "sync"); [|exact Ht].
  destruct (changes !! STORAGE_KEY) as [newValue|]; [|exact Ht].
  destruct (bool_decide _) eqn:D; [now apply bool_decide_eq_true_1 in D | apply default_supported].
Qed.

End SettingsFacts.

(** X4.  The target protocol of the content script is a supported one at
    all times: after [loadSettings], whatever the store holds and whether
    or not it answers, and after every change event that follows. *)
Theorem targetProtocol_always_supported
    (st : Content.Storage) (events : list (gmap string (option string) * string)) :
  Content.targetProtocol_after st events ∈ Content.SUPPORTED_PROTOCOLS.
Proof.
  unfold Content.targetProtocol_after.
  generalize (SettingsFacts.loadSettings_supported st).
  generalize (fst (Content.loadSettings st)) as t.
  induction events as [|e events IH]; intros t Ht; simpl; [exact Ht|].
  apply IH. now apply SettingsFacts.onChanged_supported.
Qed.


(** X6.  What the popup stores, the content script gets.  With a store
    that answers, [setSelectedProtocol] of a supported protocol succeeds,
    and afterwards [getSelectedProtocol] and [loadSettings] return that
    protocol and leave the store alone, as does the listener on the change
    event of the write.  An unsupported non-empty value is stored as well,
    and the next read replaces it by the default. *)
Theorem selection_roundtrip (protocol : string) (st : Content.Storage) :
  Content.get_rejects st = false -> Content.set_rejects st = false ->
  JS.truthy protocol = true ->
  let st' := snd (Content.setSelectedProtocol protocol st) in
  fst (Content.setSelectedProtocol protocol st) = true
  /\ Content.items st' !! Content.STORAGE_KEY = Some protocol
  /\ (protocol ∈ Content.SUPPORTED_PROTOCOLS ->
      Content.getSelectedProtocol st' = (protocol, st')
      /\ Content.loadSettings st' = (protocol, st')
      /\ forall t, Content.onChanged {[ Content.STORAGE_KEY := Some protocol ]} "sync" t = protocol)
  /\ (protocol ∉ Content.SUPPORTED_PROTOCOLS ->
      fst (Content.getSelectedProtocol st') = Content.DEFAULT_PROTOCOL
      /\ Content.items (snd (Content.getSelectedProtocol st')) !! Content.STORAGE_KEY
         = Some Content.DEFAULT_PROTOCOL
      /\ forall t, Content.onChanged {[ Content.STORAGE_KEY := Some protocol ]} "sync" t
                   = Content.DEFAULT_PROTOCOL).
Proof.
  intros Hg Hs Ht st'.
  assert (Hset : Content.setSelectedProtocol protocol st
                 = (true, {| Content.items := <[Content.STORAGE_KEY := protocol]> (Content.items st);
                             Content.get_rejects := false; Content.set_rejects := false |})).
  { unfold Content.setSelectedProtocol, Content.storage_set. now rewrite Hs, Hg. }
  subst st'. rewrite Hset. simpl.
  split; [reflexivity|]. split; [apply lookup_insert_eq|].
  unfold Content.getSelectedProtocol, Content.getSelectedProtocol_try.
  unfold Content.loadSettings, Content.loadSettings_try.
  unfold Content.storage_get, Content.storage_set, Content.onChanged. simpl.
  rewrite lookup_insert_eq, lookup_singleton_eq. simpl. unfold Content.or_default. rewrite Ht.
  split; intros Hp.
  - rewrite bool_decide_eq_true_2 by exact Hp. simpl. auto.
  - rewrite bool_decide_eq_false_2 by exact Hp. simpl.
    split; [reflexivity|]. split; [apply lookup_insert_eq | reflexivity].
Qed.

Lemma selection_roundtrip_witness :
  Content.getSelectedProtocol (snd (Content.setSelectedProtocol "cursor" Content.empty_storage))
  = ("cursor", snd (Content.setSelectedProtocol "cursor" Content.empty_storage))
  /\ fst (Content.getSelectedProtocol
            (snd (Content.setSelectedProtocol "vscodium" Content.empty_storage)))
     = Content.DEFAULT_PROTOCOL.
Proof.
  destruct (selection_roundtrip "cursor" Content.empty_storage eq_refl eq_refl eq_refl)
    as (_ & _ & Hin & _).
  destruct (selection_roundtrip "vscodium" Content.empty_storage eq_refl eq_refl eq_refl)
    as (_ & _ & _ & Hout).
  split.
  - apply Hin. refine (bool_decide_unpack _ _). vm_compute. exact I.
  - apply Hout. refine (bool_decide_unpack _ _). vm_compute. exact I.
Defined.

Module McpTargetFacts.
Import JS RegExp Web Content JSFacts RegExpFacts.
Import ContentFacts.
#[local] Arguments String.append : simpl nomatch.
#[local] Arguments Ascii.eqb : simpl never.

Lemma mcp_scheme_protocol (s : string) : mcp_scheme s -> In (s +:+ ":") VSCODE_PROTOCOLS.
Proof. intros [-> | ->]; simpl; tauto. Qed.

Lemma mcp_not_auth (s rest : string) :
  mcp_scheme s -> isAuthCallbackUrl (s +:+ ":mcp/" +:+ rest) = false.
Proof.
  intros Hs.
  change (s +:+ ":mcp/" +:+ rest) with (s +:+ ":" +:+ "mcp" +:+ "/" +:+ rest).
  rewrite isAuthCallbackUrl_provider; [reflexivity | | | now right | discriminate | reflexivity];
    destruct Hs as [-> | ->]; discriminate || reflexivity.
Qed.

Lemma mcp_not_extension (s rest : string) :
  mcp_scheme s -> parseVSCodeExtensionId (s +:+ ":mcp/" +:+ rest) = None.
Proof.
  intros Hs. unfold parseVSCodeExtensionId, exec, RE_EXTENSION. cbn [run].
  change (s +:+ ":mcp/" +:+ rest) with (s +:+ ":" +:+ "mcp/" +:+ rest).
  rewrite plus_k_commit; [| | | reflexivity |].
  - rewrite lit_k_append. now literal.
  - destruct Hs as [-> | ->]; discriminate.
  - destruct Hs as [-> | ->]; reflexivity.
  - intros c t Hc. apply none_of_not in Hc. literal. now rewrite Hc.
Qed.

Lemma mcp_convert (targetProtocol s rest : string) :
  mcp_scheme s ->
  convertToTargetUrl targetProtocol (s +:+ ":mcp/" +:+ rest)
  = if startsWith (s +:+ ":mcp/" +:+ rest) (targetProtocol +:+ ":")
    then s +:+ ":mcp/" +:+ rest
    else getProtocolPrefix targetProtocol +:+ "mcp/" +:+ rest.
Proof.
  intros Hs. destruct (startsWith _ (targetProtocol +:+ ":")) eqn:E.
  - now apply RewriteFacts.convertToTargetUrl_target.
  - change (s +:+ ":mcp/" +:+ rest) with (s +:+ ":" +:+ "mcp/" +:+ rest) in *.
    rewrite <- append_assoc in *.
    apply RewriteFacts.convertToTargetUrl_source; [now apply mcp_scheme_protocol | | exact E].
    rewrite append_assoc. now apply (mcp_not_auth s rest).
Qed.

(** The plain-link part of the handler on an MCP link *)
Lemma mcp_plain (targetProtocol s rest : string) :
  mcp_scheme s ->
  handlePlain targetProtocol (s +:+ ":mcp/" +:+ rest)
  = if startsWith (s +:+ ":mcp/" +:+ rest) (targetProtocol +:+ ":")
    then PassThrough
    else Redirect (getProtocolPrefix targetProtocol +:+ "mcp/" +:+ rest).
Proof.
  intros Hs. unfold handlePlain.
  rewrite (ThrowFacts.mcp_link_isVSCodeUrl _ (McpFacts.isMcpUrl_scheme s rest Hs)).
  cbn [negb]. rewrite (mcp_convert _ _ _ Hs).
  destruct (startsWith _ (targetProtocol +:+ ":")) eqn:E; [now rewrite String.eqb_refl|].
  destruct (String.eqb_spec (getProtocolPrefix targetProtocol +:+ "mcp/" +:+ rest)
              (s +:+ ":mcp/" +:+ rest)) as [X|]; [|reflexivity].
  rewrite <- X, RewriteFacts.getProtocolPrefix_target in E. discriminate.
Qed.

End McpTargetFacts.

(** X7.  With a target other than [antigravity], an MCP link that is
    neither a redirect link nor a package link is sent to the same
    [mcp/...] path under the target's scheme, and is left alone when it has
    that scheme already. *)
Theorem mcp_link_other_target
    (P : Web.Platform) (targetProtocol : string) (reply : Content.HostReply) (s rest : string) :
  Content.mcp_scheme s -> targetProtocol <> "antigravity" ->
  Content.isVSCodeDevRedirectUrl (s +:+ ":mcp/" +:+ rest) = false ->
  Content.isVsixUrl P (s +:+ ":mcp/" +:+ rest) = JS.Normal false ->
  Content.handleClick P targetProtocol reply (s +:+ ":mcp/" +:+ rest)
  = JS.Normal (if JS.startsWith (s +:+ ":mcp/" +:+ rest) (targetProtocol +:+ ":")
               then Content.PassThrough
               else Content.Redirect (targetProtocol +:+ ":mcp/" +:+ rest)).
Proof.
  intros Hs Ht Hredirect Hvsix. unfold Content.handleClick.
  rewrite (McpTargetFacts.mcp_not_auth _ _ Hs), (McpTargetFacts.mcp_not_extension _ _ Hs).
  unfold Content.handleOther. rewrite Hredirect, Hvsix. simpl.
  rewrite (McpFacts.isMcpUrl_scheme _ _ Hs). unfold Content.handleMcp.
  assert (Hna : String.eqb targetProtocol "antigravity" = false) by now apply String.eqb_neq.
  rewrite Hna, (McpTargetFacts.mcp_convert _ _ _ Hs), (McpTargetFacts.mcp_plain _ _ _ Hs).
  unfold Content.getProtocolPrefix. rewrite Hna.
  destruct (JS.startsWith _ (targetProtocol +:+ ":")) eqn:E.
  - now rewrite String.eqb_refl.
  - rewrite JSFacts.append_assoc.
    change (targetProtocol +:+ ":" +:+ "mcp/" +:+ rest) with (targetProtocol +:+ ":mcp/" +:+ rest).
    now destruct (negb _).
Qed.

Lemma mcp_link_other_target_witness :
  Content.handleClick Web.browser "cursor" Content.ReplyUndefined
    ("vscode" +:+ ":mcp/" +:+ "by-name/huggingface")
  = JS.Normal (Content.Redirect ("cursor" +:+ ":mcp/" +:+ "by-name/huggingface")).
Proof.
  apply (mcp_link_other_target Web.browser "cursor" Content.ReplyUndefined
           "vscode" "by-name/huggingface").
  - now left.
  - discriminate.
  - vm_compute. reflexivity.
  - vm_compute. reflexivity.
Defined.



(** X9.  The link in the [url] parameter of a redirect is rewritten as
    [convertToTargetUrl] rewrites it, for every supported target, with one
    exception: under the target [antigravity] a link that already starts
    with [antigravity:] is not kept but gets the prefix [antigravity://]
    in place of [antigravity:]. *)
Theorem url_parameter_rewrite :
  (forall (P : Web.Platform) (targetProtocol urlParam decodedUrl : string),
     targetProtocol ∈ Content.SUPPORTED_PROTOCOLS ->
     Web.decodeURIComponent P urlParam = JS.Normal decodedUrl ->
     targetProtocol <> "antigravity"
     \/ JS.startsWith decodedUrl "antigravity:" = false
     \/ Content.isAuthCallbackUrl decodedUrl = true ->
     Content.convertUrlParam P targetProtocol urlParam
     = JS.Normal (Some (Content.convertToTargetUrl targetProtocol decodedUrl)))
  /\ (forall (P : Web.Platform) (urlParam rest : string),
        Web.decodeURIComponent P urlParam = JS.Normal ("antigravity:" +:+ rest) ->
        Content.isAuthCallbackUrl ("antigravity:" +:+ rest) = false ->
        Content.convertUrlParam P "antigravity" urlParam
        = JS.Normal (Some ("antigravity://" +:+ rest))
        /\ Content.convertToTargetUrl "antigravity" ("antigravity:" +:+ rest)
           = "antigravity:" +:+ rest).
Proof.
  split.
  - intros P t urlParam d Ht Hd Hcase.
    unfold Content.convertUrlParam. rewrite Hd. simpl.
    unfold Content.convertToTargetUrl.
    destruct (Content.isAuthCallbackUrl d) eqn:Ha; [reflexivity|].
    destruct (JS.startsWith d (t +:+ ":")) eqn:E.
    + simpl. apply JSFacts.startsWith_split in E as [r ->].
      assert (Hin : In (t +:+ ":") Content.VSCODE_PROTOCOLS).
      { destruct (SettingsFacts.supported_cases _ Ht) as [-> | [-> | [-> | [-> | ->]]]];
          simpl; tauto. }
      rewrite (RewriteFacts.sourceProtocol_append _ _ Hin), JSFacts.slice_append.
      unfold Content.getProtocolPrefix.
      destruct (String.eqb_spec t "antigravity") as [-> | _]; [|reflexivity].
      destruct Hcase as [H | [H | H]]; [congruence | | congruence].
      now rewrite JSFacts.startsWith_append in H.
    + assert (E2 : JS.startsWith d (t +:+ "://") = false).
      { destruct (JS.startsWith d (t +:+ "://")) eqn:X; [|reflexivity].
        change "://" with (":" +:+ "//") in X. rewrite <- JSFacts.append_assoc in X.
        apply JSFacts.startsWith_shorter in X. congruence. }
      rewrite E2. simpl.
      now destruct (Content.sourceProtocol d).
  - intros P urlParam rest Hd Ha. split.
    + unfold Content.convertUrlParam. rewrite Hd.
      unfold mbind, completion_bind, JS.bind. rewrite Ha.
      rewrite (RewriteFacts.sourceProtocol_append "antigravity:" rest) by (simpl; tauto).
      now rewrite JSFacts.slice_append.
    + apply RewriteFacts.convertToTargetUrl_target, JSFacts.startsWith_append.
Qed.

Lemma url_parameter_rewrite_witness :
  Content.convertUrlParam Web.browser "cursor" "vscode-insiders%3Amcp%2Finstall"
  = JS.Normal (Some (Content.convertToTargetUrl "cursor" "vscode-insiders:mcp/install"))
  /\ Content.convertUrlParam Web.browser "antigravity" "antigravity%3A%2F%2Ffile%2Fa"
     = JS.Normal (Some ("antigravity://" +:+ "//file/a")).
Proof.
  destruct url_parameter_rewrite as [Hsame Hedge]. split.
  - apply Hsame.
    + refine (bool_decide_unpack _ _). vm_compute. exact I.
    + vm_compute. reflexivity.
    + left. discriminate.
  - apply (Hedge Web.browser "antigravity%3A%2F%2Ffile%2Fa" "//file/a").
    + vm_compute. reflexivity.
    + vm_compute. reflexivity.
Defined.

Module PackageFacts.
Import JS RegExp Web Content JSFacts RegExpFacts.
Import ContentFacts.
#[local] Arguments String.append : simpl nomatch.
#[local] Arguments Ascii.eqb : simpl never.

Lemma lower_char_slash (c : ascii) :
  none_of "/" c = true -> none_of "/" (lower_char c) = true.
Proof.
  destruct c as [[] [] [] [] [] [] [] []]; vm_compute; intros H; exact H || reflexivity.
Qed.

Lemma toLowerCase_segment (s : string) :
  every (none_of "/") s = true -> every (none_of "/") (toLowerCase s) = true.
Proof.
  induction s as [|c s IH]; simpl; [reflexivity|].
  intros H. apply andb_true_iff in H as [Hc Hs].
  now rewrite (lower_char_slash _ Hc), IH.
Qed.

Lemma toLowerCase_nonempty (s : string) : s <> "" -> toLowerCase s <> "".
Proof. destruct s; [congruence | discriminate]. Qed.

(** A path segment followed by a literal that starts with [/] *)
Lemma segment_k (k : cont) (l seg rest : string) (cs : captures) :
  seg <> "" -> every (none_of "/") seg = true ->
  plus_k (none_of "/") (lit_k (String "/" l) k) (seg +:+ String "/" l +:+ rest) cs
  = k rest cs.
Proof.
  intros Hne Hc.
  rewrite plus_k_commit; [| exact Hne | exact Hc | reflexivity |].
  - change (String "/" l +:+ rest) with (String "/" l +:+ rest). apply lit_k_append.
  - intros c t H. apply none_of_not in H. simpl. now rewrite H.
Qed.

(** The same under a capture group *)
Lemma segment_group_k (k : cont) (n : nat) (l seg rest : string) (cs : captures) :
  seg <> "" -> every (none_of "/") seg = true ->
  plus_k (none_of "/")
    (fun s' cs' => lit_k (String "/" l) k s'
                     ((n, consumed (seg +:+ String "/" l +:+ rest) s') :: cs'))
    (seg +:+ String "/" l +:+ rest) cs
  = k rest ((n, seg) :: cs).
Proof.
  intros Hne Hc.
  rewrite plus_k_commit; [| exact Hne | exact Hc | reflexivity |].
  - now rewrite lit_k_append, consumed_append.
  - intros c t H. apply none_of_not in H. simpl. now rewrite H.
Qed.

Section Paths.

Variables publisher name version : string.
Hypothesis Hp : publisher <> "".
Hypothesis Hpc : every (none_of "/") publisher = true.
Hypothesis Hn : name <> "".
Hypothesis Hnc : every (none_of "/") name = true.
Hypothesis Hv : version <> "".
Hypothesis Hvc : every (none_of "/") version = true.

Lemma exec_marketplace_info :
  exec RE_MARKETPLACE_INFO
    ("/_apis/public/gallery/publishers/" +:+ publisher +:+ "/vsextensions/" +:+ name
       +:+ "/" +:+ version +:+ "/vspackage" +:+ "")
  = Some [(3, version); (2, name); (1, publisher)].
Proof.
  unfold exec, RE_MARKETPLACE_INFO. cbn [run].
  rewrite lit_k_append.
  rewrite (segment_group_k _ 1 "vsextensions/") by assumption.
  rewrite (segment_group_k _ 2 "") by assumption.
  rewrite (segment_group_k _ 3 "vspackage") by assumption.
  reflexivity.
Qed.

Lemma test_marketplace_file :
  test RE_MARKETPLACE_FILE
    ("/_apis/public/gallery/publishers/" +:+ publisher +:+ "/vsextensions/" +:+ name
       +:+ "/" +:+ version +:+ "/vspackage" +:+ "") = true.
Proof.
  unfold test, exec, RE_MARKETPLACE_FILE. cbn [run].
  rewrite lit_k_append.
  rewrite (segment_k _ "vsextensions/") by assumption.
  rewrite (segment_k _ "") by assumption.
  rewrite (segment_k _ "vspackage") by assumption.
  reflexivity.
Qed.

Lemma exec_openvsx_info (last : string) :
  last = "" \/ (exists f, f <> "" /\ every (none_of "/") f = true /\ last = "/" +:+ f) ->
  exists m,
    exec RE_OPENVSX_INFO
      ("/api/" +:+ publisher +:+ "/" +:+ name +:+ "/" +:+ version +:+ "/file" +:+ last) = Some m
    /\ info_of m = {| Content.publisher := publisher; Content.name := name;
                      Content.version := Some version |}.
Proof.
  intros Hlast. unfold exec, RE_OPENVSX_INFO. cbn [run].
  rewrite lit_k_append.
  rewrite (segment_group_k _ 1 "") by assumption.
  rewrite (segment_group_k _ 2 "") by assumption.
  rewrite (segment_group_k _ 3 "file") by assumption.
  destruct Hlast as [-> | (f & Hf & Hfc & ->)].
  - eexists. split; [reflexivity | reflexivity].
  - rewrite lit_k_append.
    erewrite ExtensionFacts.plus_k_whole; [| exact Hf | exact Hfc | reflexivity].
    eexists. split; [reflexivity | reflexivity].
Qed.

Lemma test_openvsx_file (last : string) :
  test RE_OPENVSX_FILE
    ("/api/" +:+ publisher +:+ "/" +:+ name +:+ "/" +:+ version +:+ "/file" +:+ last) = true.
Proof.
  unfold test, exec, RE_OPENVSX_FILE. cbn [run].
  rewrite lit_k_append.
  rewrite (segment_k _ "") by assumption.
  rewrite (segment_k _ "") by assumption.
  rewrite (segment_k _ "file") by assumption.
  reflexivity.
Qed.

End Paths.

End PackageFacts.

Module FilenameFacts.
Import JS RegExp Web Content JSFacts RegExpFacts.
Import ContentFacts.
#[local] Arguments String.append : simpl nomatch.
#[local] Arguments Ascii.eqb : simpl never.
Local Open Scope Z_scope.


Lemma indexOf_ge (s : string) (c : ascii) : -1 <= indexOf s c.
Proof.
  induction s as [|a s IH]; simpl; [lia|].
  destruct (Ascii.eqb a c); [lia|]. destruct (indexOf s c <? 0) eqn:E; lia.
Qed.









Section Continuation.

Variable k : cont.




End Continuation.



End FilenameFacts.

Module PackageLinkFacts.
Import JS RegExp Web Content JSFacts RegExpFacts.
#[local] Arguments String.append : simpl nomatch.


Lemma is_http (p : string) :
  p = "http:" \/ p = "https:" ->
  negb (String.eqb p "http:") && negb (String.eqb p "https:") = false.
Proof. now intros [-> | ->]. Qed.

Lemma marketplace_host (h : string) :
  h = "marketplace.visualstudio.com" ->
  (String.eqb h "open-vsx.org" || endsWith h ".open-vsx.org") = false
  /\ endsWith h ".gallery.vsassets.io" = false
  /\ String.eqb h "marketplace.visualstudio.com" = true.
Proof. intros ->. vm_compute. auto. Qed.

(** A pattern that begins with a literal fails on a path that does not
    begin with the start of that literal. *)
Lemma exec_literal_none (l l' : string) (r : re) (s : string) :
  startsWith s l = false -> exec (Seq (Lit (l +:+ l')) r) s = None.
Proof.
  intros H. unfold exec. cbn [run]. apply lit_k_none.
  destruct (startsWith s (l +:+ l')) eqn:E; [|reflexivity].
  apply startsWith_shorter in E. congruence.
Qed.

Lemma exec_vsassets_none (s : string) :
  startsWith s "/_apis/" = false -> exec RE_VSASSETS_INFO s = None.
Proof. apply (exec_literal_none "/_apis/" "public/gallery/publisher/"). Qed.

Lemma exec_marketplace_none (s : string) :
  startsWith s "/_apis/" = false -> exec RE_MARKETPLACE_INFO s = None.
Proof. apply (exec_literal_none "/_apis/" "public/gallery/publishers/"). Qed.


End PackageLinkFacts.

(** X10.  Every Marketplace package link gives its fields.  When the
    platform parses the link to an http or https URL with the host
    [marketplace.visualstudio.com] (in any case) and the path
    [/_apis/public/gallery/publishers/{publisher}/vsextensions/{name}/{version}/vspackage],
    the link is a package link and [parseExtensionFromVsixUrl] returns the
    three segments as publisher, name and version. *)
Theorem marketplace_package_link
    (P : Web.Platform) (url : string) (urlObj : Web.URL) (publisher name version : string) :
  Web.new_URL P url = JS.Normal urlObj ->
  Web.protocol urlObj = "http:" \/ Web.protocol urlObj = "https:" ->
  JS.toLowerCase (Web.hostname urlObj) = "marketplace.visualstudio.com" ->
  Web.pathname urlObj
  = "/_apis/public/gallery/publishers/" +:+ publisher +:+ "/vsextensions/" +:+ name
      +:+ "/" +:+ version +:+ "/vspackage" ->
  publisher <> "" -> JS.every (RegExp.none_of "/") publisher = true ->
  name <> "" -> JS.every (RegExp.none_of "/") name = true ->
  version <> "" -> JS.every (RegExp.none_of "/") version = true ->
  Content.isVsixUrl P url = JS.Normal true
  /\ Content.parseExtensionFromVsixUrl P url
     = JS.Normal (Some {| Content.publisher := publisher; Content.name := name;
                          Content.version := Some version |}).
Proof.
  intros Hurl Hproto Hhost Hpath Hp Hpc Hn Hnc Hv Hvc.
  destruct (PackageLinkFacts.marketplace_host _ Hhost) as (Hopen & Hassets & Hmarket).
  split.
  - unfold Content.isVsixUrl, Content.isVsixUrl_try. rewrite Hurl.
    unfold mbind, completion_bind, JS.bind, JS.try_catch, mret, completion_ret.
    rewrite (PackageLinkFacts.is_http _ Hproto), Hopen, Hassets, Hmarket.
    assert (Hlow : JS.toLowerCase (Web.pathname urlObj)
                   = "/_apis/public/gallery/publishers/" +:+ JS.toLowerCase publisher
                     +:+ "/vsextensions/" +:+ JS.toLowerCase name +:+ "/"
                     +:+ JS.toLowerCase version +:+ "/vspackage" +:+ "").
    { rewrite Hpath, !JSFacts.toLowerCase_append. reflexivity. }
    rewrite Hlow, PackageFacts.test_marketplace_file;
      auto using PackageFacts.toLowerCase_segment, PackageFacts.toLowerCase_nonempty.
    now destruct (JS.endsWith _ ".vsix").
  - unfold Content.parseExtensionFromVsixUrl, Content.parseExtensionFromVsixUrl_try.
    rewrite Hurl.
    unfold mbind, completion_bind, JS.bind, JS.try_catch, mret, completion_ret.
    rewrite Hassets, Hmarket, Hpath.
    change "/vspackage" with ("/vspackage" +:+ "").
    now rewrite PackageFacts.exec_marketplace_info.
Qed.

Lemma marketplace_package_link_witness :
  Content.isVsixUrl Web.browser
    "HTTPS://Marketplace.VisualStudio.com/_apis/public/gallery/publishers/redhat/vsextensions/java/1.30.0/vspackage"
  = JS.Normal true
  /\ Content.parseExtensionFromVsixUrl Web.browser
       "HTTPS://Marketplace.VisualStudio.com/_apis/public/gallery/publishers/redhat/vsextensions/java/1.30.0/vspackage"
     = JS.Normal (Some {| Content.publisher := "redhat"; Content.name := "java";
                          Content.version := Some "1.30.0" |}).
Proof.
  eapply (marketplace_package_link Web.browser _ _ "redhat" "java" "1.30.0");
    try (vm_compute; reflexivity); try discriminate.
  right. vm_compute. reflexivity.
Defined.

(** X11.  An Open VSX file path gives its fields on any host.  When the
    path of the parsed link is [/api/{publisher}/{name}/{version}/file],
    alone or followed by one more segment, [parseExtensionFromVsixUrl]
    returns the three segments, whatever the host and the protocol; the
    link is a package link when it is an http or https link to
    [open-vsx.org] or one of its subdomains. *)
Theorem openvsx_package_link
    (P : Web.Platform) (url : string) (urlObj : Web.URL)
    (publisher name version last : string) :
  Web.new_URL P url = JS.Normal urlObj ->
  Web.pathname urlObj
  = "/api/" +:+ publisher +:+ "/" +:+ name +:+ "/" +:+ version +:+ "/file" +:+ last ->
  publisher <> "" -> JS.every (RegExp.none_of "/") publisher = true ->
  name <> "" -> JS.every (RegExp.none_of "/") name = true ->
  version <> "" -> JS.every (RegExp.none_of "/") version = true ->
  last = "" \/ (exists f, f <> "" /\ JS.every (RegExp.none_of "/") f = true /\ last = "/" +:+ f) ->
  Content.parseExtensionFromVsixUrl P url
  = JS.Normal (Some {| Content.publisher := publisher; Content.name := name;
                       Content.version := Some version |})
  /\ (Web.protocol urlObj = "http:" \/ Web.protocol urlObj = "https:" ->
      JS.toLowerCase (Web.hostname urlObj) = "open-vsx.org"
      \/ JS.endsWith (JS.toLowerCase (Web.hostname urlObj)) ".open-vsx.org" = true ->
      Content.isVsixUrl P url = JS.Normal true).
Proof.
  intros Hurl Hpath Hp Hpc Hn Hnc Hv Hvc Hlast. split.
  - unfold Content.parseExtensionFromVsixUrl, Content.parseExtensionFromVsixUrl_try.
    rewrite Hurl.
    unfold mbind, completion_bind, JS.bind, JS.try_catch, mret, completion_ret.
    rewrite Hpath.
    rewrite PackageLinkFacts.exec_vsassets_none, PackageLinkFacts.exec_marketplace_none
      by reflexivity.
    destruct (PackageFacts.exec_openvsx_info publisher name version Hp Hpc Hn Hnc Hv Hvc last Hlast)
      as (m & -> & ->).
    now destruct (JS.endsWith _ _), (String.eqb _ _).
  - intros Hproto Hhost.
    unfold Content.isVsixUrl, Content.isVsixUrl_try. rewrite Hurl.
    unfold mbind, completion_bind, JS.bind, JS.try_catch, mret, completion_ret.
    rewrite (PackageLinkFacts.is_http _ Hproto).
    assert (Hlow : JS.toLowerCase (Web.pathname urlObj)
                   = "/api/" +:+ JS.toLowerCase publisher +:+ "/" +:+ JS.toLowerCase name
                     +:+ "/" +:+ JS.toLowerCase version +:+ "/file" +:+ JS.toLowerCase last).
    { rewrite Hpath, !JSFacts.toLowerCase_append. reflexivity. }
    rewrite Hlow, PackageFacts.test_openvsx_file;
      auto using PackageFacts.toLowerCase_segment, PackageFacts.toLowerCase_nonempty.
    assert (Hh : String.eqb (JS.toLowerCase (Web.hostname urlObj)) "open-vsx.org"
                 || JS.endsWith (JS.toLowerCase (Web.hostname urlObj)) ".open-vsx.org" = true).
    { destruct Hhost as [-> | ->]; [reflexivity | apply orb_true_r]. }
    rewrite Hh. now destruct (JS.endsWith _ ".vsix").
Qed.

Lemma openvsx_package_link_witness :
  Content.parseExtensionFromVsixUrl Web.browser
    "https://open-vsx.org/api/redhat/java/1.30.0/file/redhat.java-1.30.0.vsix"
  = JS.Normal (Some {| Content.publisher := "redhat"; Content.name := "java";
                       Content.version := Some "1.30.0" |})
  /\ Content.isVsixUrl Web.browser
       "https://open-vsx.org/api/redhat/java/1.30.0/file/redhat.java-1.30.0.vsix"
     = JS.Normal true.
Proof.
  destruct (openvsx_package_link Web.browser
              "https://open-vsx.org/api/redhat/java/1.30.0/file/redhat.java-1.30.0.vsix"
              {| Web.protocol := "https:"; Web.hostname := "open-vsx.org";
                 Web.pathname := "/api/redhat/java/1.30.0/file/redhat.java-1.30.0.vsix";
                 Web.search := ""; Web.searchParams := [] |}
              "redhat" "java" "1.30.0" "/redhat.java-1.30.0.vsix") as [Hparse Hvsix];
    try (vm_compute; reflexivity); try discriminate.
  - right. exists "redhat.java-1.30.0.vsix". repeat split; discriminate || reflexivity.
  - split; [exact Hparse|]. apply Hvsix; [right|left]; reflexivity.
Defined.



Module HelperFacts.
Import JS JSFacts RegExpFacts Helper.
#[local] Arguments String.append : simpl nomatch.
#[local] Arguments Ascii.eqb : simpl never.

Lemma fileExists_true (f : string) (w : World) : f ∈ files w -> fileExists f w = (true, w).
Proof. intros H. unfold fileExists. now rewrite bool_decide_eq_true_2. Qed.

Lemma fileExists_false (f : string) (w : World) : f ∉ files w -> fileExists f w = (false, w).
Proof. intros H. unfold fileExists. now rewrite bool_decide_eq_false_2. Qed.

Lemma firstExisting_spec (paths : list string) (w : World) :
  snd (firstExisting paths w) = w
  /\ match fst (firstExisting paths w) with
     | Some p => exists pre post,
         paths = pre ++ p :: post /\ p ∈ files w /\ Forall (fun q => q ∉ files w) pre
     | None => Forall (fun q => q ∉ files w) paths
     end.
Proof.
  induction paths as [|a paths [IHw IH]]; [split; [reflexivity | constructor]|].
  cbn [firstExisting]. unfold mbind, M_bind.
  destruct (decide (a ∈ files w)) as [Ha | Ha].
  - rewrite (fileExists_true _ _ Ha). split; [reflexivity|].
    cbn. exists [], paths. split; [reflexivity|]. split; [exact Ha | constructor].
  - rewrite (fileExists_false _ _ Ha). split; [exact IHw|].
    destruct (fst (firstExisting paths w)) as [p|].
    + destruct IH as (pre & post & -> & Hp & Hpre).
      exists (a :: pre), post. split; [reflexivity|]. split; [exact Hp | now constructor].
    + now constructor.
Qed.

Lemma writeRegistry_refused (k v msg : string) (w : World) :
  refused w !! k = Some msg ->
  writeRegistry k v w
  = ({| success := false; error := Some msg |}, world_with w (registry w) [SetDefault k v]).
Proof.
  intros H. unfold writeRegistry, mbind, M_bind, exec, refusal. cbn [refused]. now rewrite H.
Qed.

Lemma writeRegistry_ok (k v : string) (w : World) :
  refused w !! k = None ->
  writeRegistry k v w
  = ({| success := true; error := None |},
     world_with w (set_value k "(default)" v
                     (ensure_key k (ensure_key (take k (Z.to_nat (lastIndexOf k "\"))) (registry w))))
       [SetDefault k v]).
Proof.
  intros H. unfold writeRegistry, mbind, M_bind, exec, refusal. cbn [refused]. now rewrite H.
Qed.


Lemma ensure_key_other (p k : string) (r : gmap string (gmap string string)) :
  p <> k -> ensure_key p r !! k = r !! k.
Proof.
  intros H. unfold ensure_key. destruct (r !! p); [reflexivity | now apply lookup_insert_ne].
Qed.



Lemma set_value_other (p k n v : string) (r : gmap string (gmap string string)) :
  p <> k -> set_value p n v r !! k = r !! k.
Proof.
  intros H. unfold set_value. destruct (r !! p); [now apply lookup_insert_ne | reflexivity].
Qed.




Lemma register_description_refused (protocol e msg : string) (w : World) :
  e ∈ files w -> refused w !! basePath protocol = Some msg ->
  registerProtocol protocol e w
  = ({| success := false; error := Some ("Failed to set description: " +:+ msg) |},
     world_with w (registry w) [SetDefault (basePath protocol) (description protocol)]).
Proof.
  intros He Hr. unfold registerProtocol, mbind, M_bind.
  rewrite (fileExists_true _ _ He). cbn [negb].
  fold (basePath protocol). fold (description protocol).
  rewrite (writeRegistry_refused _ _ _ _ Hr). reflexivity.
Qed.

Lemma registerProtocol_command_refused (protocol e msg : string) (w : World) :
  e ∈ files w -> refused w !! basePath protocol = None ->
  refused w !! commandPath protocol = Some msg ->
  registerProtocol protocol e w
  = ({| success := false; error := Some ("Failed to set command: " +:+ msg) |},
     world_with w
       (set_value (basePath protocol) "URL Protocol" ""
          (written (basePath protocol) (description protocol) (registry w)))
       [SetDefault (basePath protocol) (description protocol);
        SetProperty (basePath protocol) "URL Protocol" "";
        SetDefault (commandPath protocol) (command e)]).
Proof.
  intros He Hb Hc. unfold registerProtocol, mbind, M_bind.
  rewrite (fileExists_true _ _ He). cbn [negb].
  fold (basePath protocol). fold (description protocol). fold (command e).
  fold (commandPath protocol).
  rewrite (writeRegistry_ok _ _ _ Hb). cbn [success negb].
  unfold exec, refusal, update, world_with. cbn [refused files registry executed].
  rewrite Hb.
  erewrite writeRegistry_refused by exact Hc.
  cbn [success negb error default]. unfold mret, M_ret, world_with.
  cbn [refused files registry executed]. now rewrite <- !app_assoc.
Qed.

Lemma registerProtocol_ok (protocol e : string) (w : World) :
  e ∈ files w -> refused w !! basePath protocol = None ->
  refused w !! commandPath protocol = None ->
  registerProtocol protocol e w
  = ({| success := true; error := None |},
     world_with w
       (written (commandPath protocol) (command e)
          (set_value (basePath protocol) "URL Protocol" ""
             (written (basePath protocol) (description protocol) (registry w))))
       [SetDefault (basePath protocol) (description protocol);
        SetProperty (basePath protocol) "URL Protocol" "";
        SetDefault (commandPath protocol) (command e)]).
Proof.
  intros He Hb Hc. unfold registerProtocol, mbind, M_bind.
  rewrite (fileExists_true _ _ He). cbn [negb].
  fold (basePath protocol). fold (description protocol). fold (command e).
  fold (commandPath protocol).
  rewrite (writeRegistry_ok _ _ _ Hb). cbn [success negb].
  unfold exec, refusal, update, world_with. cbn [refused files registry executed].
  rewrite Hb.
  erewrite writeRegistry_ok by exact Hc.
  cbn [success negb error default]. unfold mret, M_ret, world_with.
  cbn [refused files registry executed]. now rewrite <- !app_assoc.
Qed.

Lemma registerProtocol_missing (protocol e : string) (w : World) :
  e ∉ files w ->
  registerProtocol protocol e w
  = ({| success := false; error := Some ("Executable not found: " +:+ e) |}, w).
Proof.
  intros He. unfold registerProtocol, mbind, M_bind.
  now rewrite (fileExists_false _ _ He).
Qed.

(** *** Reading back *)







Lemma exec_quoted_inv (v : string) (m : RegExp.captures) :
  RegExp.exec RE_QUOTED v = Some m ->
  exists e t, v = dq +:+ e +:+ dq +:+ t /\ e <> ""
              /\ every (RegExp.none_of dq) e = true /\ m = [(1, e)].
Proof.
  unfold RegExp.exec, RE_QUOTED. cbn [RegExp.run]. intros H.
  apply lit_k_inv in H as (s & -> & H).
  apply plus_k_inv in H as (e & b & -> & He & Hq & H).
  apply lit_k_inv in H as (t & -> & H).
  unfold RegExp.accept in H. rewrite consumed_append in H.
  exists e, t. repeat split; congruence.
Qed.


Section Reading.

Variable unreadable : string -> bool.

Lemma readRegistry_world (k : string) (w : World) : snd (readRegistry unreadable k w) = w.
Proof. reflexivity. Qed.


Lemma firstRegistered_world (ks : list string) (w : World) :
  snd (firstRegistered unreadable ks w) = w.
Proof.
  induction ks as [|k ks IH]; [reflexivity|].
  cbn [firstRegistered]. unfold mbind, M_bind.
  destruct (readRegistry unreadable k w) as [[v|] w'] eqn:E;
    pose proof (readRegistry_world k w) as Hw; rewrite E in Hw; cbn in Hw; subst w'.
  - reflexivity.
  - exact IH.
Qed.

Lemma checkProtocolRegistration_world (protocol : string) (w : World) :
  snd (checkProtocolRegistration unreadable protocol w) = w.
Proof. apply firstRegistered_world. Qed.

Lemma checkProtocolRegistration_eq (protocol : string) (w : World) :
  checkProtocolRegistration unreadable protocol w
  = (fst (checkProtocolRegistration unreadable protocol w), w).
Proof.
  rewrite <- (checkProtocolRegistration_world protocol w) at 3.
  now destruct (checkProtocolRegistration unreadable protocol w).
Qed.

(** The value of a registered status is never empty; its path is the text
    between the first two quotes. *)
Lemma firstRegistered_inv (ks : list string) (w : World) :
  let status := fst (firstRegistered unreadable ks w) in
  match registryValue status with
  | Some v => registered status = true /\ v <> ""
              /\ execPath status = RegExp.exec RE_QUOTED v ≫= RegExp.group 1
  | None => registered status = false /\ execPath status = None
  end.
Proof.
  induction ks as [|k ks IH]; [now split|].
  cbn [firstRegistered]. unfold mbind, M_bind.
  destruct (readRegistry unreadable k w) as [[v|] w'] eqn:E;
    pose proof (readRegistry_world k w) as Hw; rewrite E in Hw; cbn in Hw; subst w'.
  - cbn. repeat split.
    unfold readRegistry in E. destruct (unreadable k); [discriminate|].
    destruct (registry w !! k ≫= _) as [out|]; [|discriminate].
    cbn zeta in E. unfold truthy in E.
    destruct (String.eqb_spec (trim out) ""); cbn in E; [discriminate|].
    congruence.
  - exact IH.
Qed.


End Reading.

(** *** The table of installation paths *)


Lemma default_paths_prototype (L protocol : string) :
  protocol ∈ Content.Object_prototype -> DEFAULT_IDE_PATHS L !! protocol = None.
Proof.
  unfold Content.Object_prototype. rewrite !elem_of_union, !elem_of_singleton.
  intros H. repeat (destruct H as [H | H]); subst protocol; vm_compute; reflexivity.
Qed.

Lemma findIDEPath_eq (L protocol : string) (w : World) :
  findIDEPath L protocol w = (fst (findIDEPath L protocol w), w).
Proof.
  unfold findIDEPath. destruct (DEFAULT_IDE_PATHS L !! protocol) as [paths|].
  - unfold mbind, M_bind.
    destruct (firstExisting_spec paths w) as [Hw _].
    destruct (firstExisting paths w) as [r w']. cbn in *. now subst.
  - now destruct (bool_decide _).
Qed.

(** *** The outcomes of [registerProtocol] *)

Lemma registerProtocol_cases (protocol e : string) (w : World) :
  registerProtocol protocol e w
  = if bool_decide (e ∈ files w) then
      match refused w !! basePath protocol with
      | Some msg =>
          ({| success := false; error := Some ("Failed to set description: " +:+ msg) |},
           world_with w (registry w) [SetDefault (basePath protocol) (description protocol)])
      | None =>
          let cs := [SetDefault (basePath protocol) (description protocol);
                     SetProperty (basePath protocol) "URL Protocol" "";
                     SetDefault (commandPath protocol) (command e)] in
          let r := set_value (basePath protocol) "URL Protocol" ""
                     (written (basePath protocol) (description protocol) (registry w)) in
          match refused w !! commandPath protocol with
          | Some msg =>
              ({| success := false; error := Some ("Failed to set command: " +:+ msg) |},
               world_with w r cs)
          | None =>
              ({| success := true; error := None |},
               world_with w (written (commandPath protocol) (command e) r) cs)
          end
      end
    else ({| success := false; error := Some ("Executable not found: " +:+ e) |}, w).
Proof.
  destruct (bool_decide_reflect (e ∈ files w)) as [He | He].
  - destruct (refused w !! basePath protocol) as [msg|] eqn:Hb.
    + now apply register_description_refused.
    + destruct (refused w !! commandPath protocol) as [msg|] eqn:Hc.
      * now apply registerProtocol_command_refused.
      * now apply registerProtocol_ok.
  - now apply registerProtocol_missing.
Qed.




(** *** Keys outside the classes of the user *)

Lemma lastIndexOf_ge (a b : string) (c : ascii) :
  (Z.of_nat (String.length a) <= lastIndexOf (a +:+ String c b) c)%Z.
Proof.
  induction a as [|x a IH].
  - cbn [String.append String.length lastIndexOf].
    rewrite Ascii.eqb_refl. destruct (0 <=? lastIndexOf b c)%Z eqn:E; lia.
  - change (String x a +:+ String c b) with (String x (a +:+ String c b)).
    cbn [lastIndexOf String.length].
    destruct (0 <=? lastIndexOf (a +:+ String c b) c)%Z eqn:E; lia.
Qed.

Lemma startsWith_take (p rest : string) (n : nat) :
  String.length p <= n -> startsWith (take (p +:+ rest) n) p = true.
Proof.
  revert n. induction p as [|x p IH]; intros n Hn; [reflexivity|].
  destruct n as [|n]; [cbn in Hn; lia|].
  change (String x p +:+ rest) with (String x (p +:+ rest)).
  cbn [take startsWith]. rewrite Ascii.eqb_refl. apply IH. cbn in Hn. lia.
Qed.

Lemma parent_under (p rest : string) :
  let k := p +:+ String "\" rest in
  startsWith k p = true /\ startsWith (take k (Z.to_nat (lastIndexOf k "\"))) p = true.
Proof.
  split; [apply startsWith_append|].
  apply startsWith_take. pose proof (lastIndexOf_ge p rest "\"). lia.
Qed.

Lemma written_frame (k v k' : string) (r : gmap string (gmap string string)) :
  k' <> k -> k' <> take k (Z.to_nat (lastIndexOf k "\")) -> written k v r !! k' = r !! k'.
Proof.
  intros H1 H2. unfold written.
  rewrite set_value_other, !ensure_key_other; congruence.
Qed.

Lemma written_outside (p rest v k' : string) (r : gmap string (gmap string string)) :
  startsWith k' p = false -> written (p +:+ String "\" rest) v r !! k' = r !! k'.
Proof.
  intros H. destruct (parent_under p rest) as [H1 H2].
  apply written_frame; intros ->; congruence.
Qed.

Lemma basePath_under (protocol : string) :
  basePath protocol = "HKCU:\Software\Classes" +:+ String "\" protocol.
Proof. reflexivity. Qed.

Lemma commandPath_under (protocol : string) :
  commandPath protocol
  = "HKCU:\Software\Classes" +:+ String "\" (protocol +:+ "\shell\open\command").
Proof. unfold commandPath, basePath. now rewrite append_assoc. Qed.


Lemma findIDEPath_none (L protocol : string) (w : World) :
  protocol ∉ Content.Object_prototype ->
  (forall paths, DEFAULT_IDE_PATHS L !! protocol = Some paths ->
                 Forall (fun q => q ∉ files w) paths) ->
  fst (findIDEPath L protocol w) = Normal None.
Proof.
  intros Hp Hnone. unfold findIDEPath.
  destruct (DEFAULT_IDE_PATHS L !! protocol) as [paths|].
  - unfold mbind, M_bind. specialize (Hnone paths eq_refl).
    destruct (firstExisting_spec paths w) as [_ H].
    destruct (firstExisting paths w) as [[p|] w']; cbn in *; [|reflexivity].
    destruct H as (pre & post & -> & Hin & _).
    apply Forall_app in Hnone as [_ Hnone]. apply Forall_cons in Hnone as [Hnone _].
    contradiction.
  - now rewrite (bool_decide_eq_false_2 _ Hp).
Qed.

Lemma findIDEPath_throws (L protocol : string) (w : World) :
  protocol ∈ Content.Object_prototype ->
  fst (findIDEPath L protocol w) = Throw "TypeError: paths is not iterable".
Proof.
  intros Hp. unfold findIDEPath.
  now rewrite (default_paths_prototype L protocol Hp), (bool_decide_eq_true_2 _ Hp).
Qed.

(** The result of [autoRegisterProtocol] by the status found, the path
    found and the result of the registration *)
Lemma autoRegisterProtocol_cases (L : string) (u : string -> bool) (protocol : string) (w : World) :
  autoRegisterProtocol L u protocol w
  = let status := fst (checkProtocolRegistration u protocol w) in
    let cannot :=
      {| auto_success := false; auto_execPath := None; alreadyRegistered := false;
         auto_error := Some ("Cannot find " +:+ protocol +:+
           " installation. Please install it first or specify the path manually.") |} in
    if registered status then
      (Normal {| auto_success := true; auto_execPath := execPath status;
                 alreadyRegistered := true; auto_error := None |}, w)
    else
      match fst (findIDEPath L protocol w) with
      | Throw e => (Throw e, w)
      | Normal None => (Normal cannot, w)
      | Normal (Some path) =>
          if negb (truthy path) then (Normal cannot, w)
          else
            (Normal (if success (fst (registerProtocol protocol path w))
                     then {| auto_success := true; auto_execPath := Some path;
                             alreadyRegistered := false; auto_error := None |}
                     else {| auto_success := false; auto_execPath := None;
                             alreadyRegistered := false;
                             auto_error := error (fst (registerProtocol protocol path w)) |}),
             snd (registerProtocol protocol path w))
      end.
Proof.
  unfold autoRegisterProtocol, mbind, M_bind.
  rewrite (checkProtocolRegistration_eq u protocol w). cbn zeta.
  destruct (registered _); [reflexivity|].
  rewrite (findIDEPath_eq L protocol w).
  destruct (fst (findIDEPath L protocol w)) as [[path|]|e]; cbn [fst]; try reflexivity.
  destruct (negb (truthy path)); [reflexivity|].
  destruct (registerProtocol protocol path w) as [result w']. cbn [fst snd].
  now destruct (success result).
Qed.

End HelperFacts.

(** ** The registration helper *)

(** X13.  [findIDEPath] returns the first candidate of the table that
    exists.  It leaves the world as it is.  Its result is a path of the
    table's entry for the protocol that exists, with no existing path
    before it; or [null], when no path of the entry exists or the table has
    no entry and [Object.prototype] no property of that name; or the
    exception of iterating a property of [Object.prototype]. *)
Theorem findIDEPath_first_existing (LOCALAPPDATA protocol : string) (w : Helper.World) :
  snd (Helper.findIDEPath LOCALAPPDATA protocol w) = w
  /\ match fst (Helper.findIDEPath LOCALAPPDATA protocol w) with
     | JS.Normal (Some p) =>
         exists pre post,
           Helper.DEFAULT_IDE_PATHS LOCALAPPDATA !! protocol = Some (pre ++ p :: post)
           /\ p ∈ Helper.files w /\ Forall (fun q => q ∉ Helper.files w) pre
     | JS.Normal None =>
         match Helper.DEFAULT_IDE_PATHS LOCALAPPDATA !! protocol with
         | Some paths => Forall (fun q => q ∉ Helper.files w) paths
         | None => protocol ∉ Content.Object_prototype
         end
     | JS.Throw e =>
         Helper.DEFAULT_IDE_PATHS LOCALAPPDATA !! protocol = None
         /\ protocol ∈ Content.Object_prototype
         /\ e = "TypeError: paths is not iterable"
     end.
Proof.
  unfold Helper.findIDEPath.
  destruct (Helper.DEFAULT_IDE_PATHS LOCALAPPDATA !! protocol) as [paths|] eqn:E.
  - unfold mbind, Helper.M_bind.
    destruct (HelperFacts.firstExisting_spec paths w) as [Hw H].
    destruct (Helper.firstExisting paths w) as [[p|] w']; cbn in *.
    + split; [exact Hw|]. destruct H as (pre & post & -> & H). now exists pre, post.
    + split; [exact Hw | exact H].
  - destruct (bool_decide_reflect (protocol ∈ Content.Object_prototype)) as [H | H];
      cbn; repeat split; assumption.
Qed.




(** X16.  A refused description stops the registration before anything is
    written.  When PowerShell refuses the key of the protocol,
    [registerProtocol] fails with the refusal behind
    [Failed to set description: ], has run the description script only, and
    the registry is as before. *)
Theorem registerProtocol_description_refused (protocol execPath output : string) (w : Helper.World) :
  execPath ∈ Helper.files w ->
  Helper.refused w !! Helper.basePath protocol = Some output ->
  Helper.registerProtocol protocol execPath w
  = ({| Helper.success := false;
        Helper.error := Some ("Failed to set description: " +:+ output) |},
     {| Helper.files := Helper.files w; Helper.registry := Helper.registry w;
        Helper.refused := Helper.refused w;
        Helper.executed :=
          Helper.executed w
          ++ [Helper.SetDefault (Helper.basePath protocol) ("URL:" +:+ protocol +:+ " Protocol")] |}).
Proof. intros He Hb. now apply HelperFacts.register_description_refused. Qed.

Lemma registerProtocol_description_refused_witness :
  Helper.registerProtocol "windsurf" "C:\Program Files\Windsurf\Windsurf.exe"
    (Helper.refusing_world (Helper.basePath "windsurf") "ERROR: Access is denied.")
  = ({| Helper.success := false;
        Helper.error := Some "Failed to set description: ERROR: Access is denied." |},
     {| Helper.files := Helper.files Helper.example_world; Helper.registry := ∅;
        Helper.refused := {[ Helper.basePath "windsurf" := "ERROR: Access is denied." ]};
        Helper.executed :=
          [Helper.SetDefault (Helper.basePath "windsurf") "URL:windsurf Protocol"] |}).
Proof.
  apply (registerProtocol_description_refused "windsurf" "C:\Program Files\Windsurf\Windsurf.exe"
           "ERROR: Access is denied."
           (Helper.refusing_world (Helper.basePath "windsurf") "ERROR: Access is denied.")).
  - refine (bool_decide_unpack _ _). vm_compute. exact I.
  - vm_compute. reflexivity.
Defined.



(** X18.  [registerProtocol] edits nothing outside the classes of the
    user.  Whatever the outcome, a key whose path does not start with
    [HKCU:\Software\Classes] holds after the call what it held before, and
    the files are as before. *)
Theorem registerProtocol_frame (protocol execPath keyPath : string) (w : Helper.World) :
  JS.startsWith keyPath "HKCU:\Software\Classes" = false ->
  Helper.registry (snd (Helper.registerProtocol protocol execPath w)) !! keyPath
  = Helper.registry w !! keyPath
  /\ Helper.files (snd (Helper.registerProtocol protocol execPath w)) = Helper.files w.
Proof.
  intros Hk.
  assert (Hb : forall v r, Helper.written (Helper.basePath protocol) v r !! keyPath = r !! keyPath).
  { intros v r. rewrite HelperFacts.basePath_under. now apply HelperFacts.written_outside. }
  assert (Hc : forall v r, Helper.written (Helper.commandPath protocol) v r !! keyPath = r !! keyPath).
  { intros v r. rewrite HelperFacts.commandPath_under. now apply HelperFacts.written_outside. }
  assert (Hs : forall n v r, Helper.set_value (Helper.basePath protocol) n v r !! keyPath = r !! keyPath).
  { intros n v r. apply HelperFacts.set_value_other. intros <-.
    rewrite HelperFacts.basePath_under, JSFacts.startsWith_append in Hk. discriminate. }
  rewrite HelperFacts.registerProtocol_cases.
  destruct (bool_decide (execPath ∈ Helper.files w)); [|now split].
  destruct (Helper.refused w !! Helper.basePath protocol); [now split|].
  cbn zeta. destruct (Helper.refused w !! Helper.commandPath protocol);
    cbn [snd Helper.world_with Helper.registry Helper.files];
    (split; [|reflexivity]); now rewrite ?Hc, Hs, Hb.
Qed.

Lemma registerProtocol_frame_witness :
  Helper.registry Helper.registered_world !! "HKCU:\Software\Microsoft"
  = Helper.registry Helper.example_world !! "HKCU:\Software\Microsoft"
  /\ Helper.files Helper.registered_world = Helper.files Helper.example_world.
Proof.
  apply (registerProtocol_frame "windsurf" "C:\Program Files\Windsurf\Windsurf.exe"
           "HKCU:\Software\Microsoft" Helper.example_world).
  vm_compute. reflexivity.
Defined.



(** X20.  The path of a registration is what stands between the first two
    quotes.  When [checkProtocolRegistration] reports an executable path,
    the protocol is registered, and the registry value it reports starts
    with a quote, the path, which is not empty and holds no quote, and a
    quote; the check changes nothing. *)
Theorem registered_path_between_quotes
    (unreadable : string -> bool) (protocol path : string) (w : Helper.World) :
  Helper.execPath (fst (Helper.checkProtocolRegistration unreadable protocol w)) = Some path ->
  snd (Helper.checkProtocolRegistration unreadable protocol w) = w
  /\ Helper.registered (fst (Helper.checkProtocolRegistration unreadable protocol w)) = true
  /\ path <> "" /\ JS.every (RegExp.none_of Helper.dq) path = true
  /\ exists rest,
       Helper.registryValue (fst (Helper.checkProtocolRegistration unreadable protocol w))
       = Some (Helper.dq +:+ path +:+ Helper.dq +:+ rest).
Proof.
  intros H. split; [apply HelperFacts.checkProtocolRegistration_world|].
  unfold Helper.checkProtocolRegistration in *.
  pose proof (HelperFacts.firstRegistered_inv unreadable
                [ "HKCU:\Software\Classes\" +:+ protocol +:+ "\shell\open\command";
                  "Registry::HKEY_CLASSES_ROOT\" +:+ protocol +:+ "\shell\open\command" ] w)
    as Hinv.
  cbn zeta in Hinv.
  destruct (Helper.registryValue _) as [v|].
  - destruct Hinv as (Hr & _ & Hx). rewrite H in Hx.
    destruct (RegExp.exec Helper.RE_QUOTED v) as [m|] eqn:E; [|discriminate].
    apply HelperFacts.exec_quoted_inv in E as (e & t & -> & He & Hq & ->).
    cbn in Hx. injection Hx as ->.
    split; [exact Hr|]. split; [exact He|]. split; [exact Hq|]. now exists t.
  - destruct Hinv as [_ Hx]. congruence.
Qed.

Lemma registered_path_between_quotes_witness :
  snd (Helper.checkProtocolRegistration (fun _ => false) "windsurf" Helper.registered_world)
  = Helper.registered_world
  /\ Helper.registered
       (fst (Helper.checkProtocolRegistration (fun _ => false) "windsurf" Helper.registered_world))
     = true
  /\ "C:\Program Files\Windsurf\Windsurf.exe" <> ""
  /\ JS.every (RegExp.none_of Helper.dq) "C:\Program Files\Windsurf\Windsurf.exe" = true
  /\ exists rest,
       Helper.registryValue
         (fst (Helper.checkProtocolRegistration (fun _ => false) "windsurf" Helper.registered_world))
       = Some (Helper.dq +:+ "C:\Program Files\Windsurf\Windsurf.exe" +:+ Helper.dq +:+ rest).
Proof.
  apply (registered_path_between_quotes (fun _ => false) "windsurf"
           "C:\Program Files\Windsurf\Windsurf.exe" Helper.registered_world).
  vm_compute. reflexivity.
Defined.



(** X22.  Without an installation [autoRegisterProtocol] reports it and
    writes nothing.  When the protocol is not registered, no candidate path
    of the table exists for it (or the table has no entry for it, nor
    [Object.prototype] a property of its name), the result is the failure
    [Cannot find {protocol} installation. ...] and the world is as before. *)
Theorem autoRegisterProtocol_not_installed
    (LOCALAPPDATA : string) (unreadable : string -> bool) (protocol : string) (w : Helper.World) :
  Helper.registered (fst (Helper.checkProtocolRegistration unreadable protocol w)) = false ->
  protocol ∉ Content.Object_prototype ->
  (forall paths, Helper.DEFAULT_IDE_PATHS LOCALAPPDATA !! protocol = Some paths ->
                 Forall (fun q => q ∉ Helper.files w) paths) ->
  Helper.autoRegisterProtocol LOCALAPPDATA unreadable protocol w
  = (JS.Normal {| Helper.auto_success := false; Helper.auto_execPath := None;
                  Helper.alreadyRegistered := false;
                  Helper.auto_error :=
                    Some ("Cannot find " +:+ protocol +:+
                          " installation. Please install it first or specify the path manually.") |},
     w).
Proof.
  intros Hreg Hp Hnone.
  rewrite HelperFacts.autoRegisterProtocol_cases. cbn zeta.
  now rewrite Hreg, (HelperFacts.findIDEPath_none _ _ _ Hp Hnone).
Qed.

Lemma autoRegisterProtocol_not_installed_witness :
  Helper.autoRegisterProtocol "C:\Users\me\AppData\Local" (fun _ => false) "cursor"
    Helper.example_world
  = (JS.Normal {| Helper.auto_success := false; Helper.auto_execPath := None;
                  Helper.alreadyRegistered := false;
                  Helper.auto_error :=
                    Some ("Cannot find " +:+ "cursor" +:+
                          " installation. Please install it first or specify the path manually.") |},
     Helper.example_world).
Proof.
  apply (autoRegisterProtocol_not_installed "C:\Users\me\AppData\Local" (fun _ => false)
           "cursor" Helper.example_world).
  - vm_compute. reflexivity.
  - refine (bool_decide_unpack _ _). vm_compute. exact I.
  - intros paths H. vm_compute in H. injection H as <-.
    repeat constructor; refine (bool_decide_unpack _ _); vm_compute; exact I.
Defined.

(** X23.  For a protocol named after a property of [Object.prototype]
    that is not registered, [autoRegisterProtocol] ends with the exception
    of [findIDEPath], the promise is rejected, and the world is as
    before. *)
Theorem autoRegisterProtocol_rejects
    (LOCALAPPDATA : string) (unreadable : string -> bool) (protocol : string) (w : Helper.World) :
  Helper.registered (fst (Helper.checkProtocolRegistration unreadable protocol w)) = false ->
  protocol ∈ Content.Object_prototype ->
  Helper.autoRegisterProtocol LOCALAPPDATA unreadable protocol w
  = (JS.Throw "TypeError: paths is not iterable", w).
Proof.
  intros Hreg Hp.
  rewrite HelperFacts.autoRegisterProtocol_cases. cbn zeta.
  now rewrite Hreg, (HelperFacts.findIDEPath_throws _ _ _ Hp).
Qed.

Lemma autoRegisterProtocol_rejects_witness :
  Helper.autoRegisterProtocol "C:\Users\me\AppData\Local" (fun _ => false) "constructor"
    Helper.example_world
  = (JS.Throw "TypeError: paths is not iterable", Helper.example_world).
Proof.
  apply (autoRegisterProtocol_rejects "C:\Users\me\AppData\Local" (fun _ => false)
           "constructor" Helper.example_world).
  - vm_compute. reflexivity.
  - refine (bool_decide_unpack _ _). vm_compute. exact I.
Defined.

(** ** Links that are none of the program's *)

(** X24.  A link that is no IDE link, no [vscode.dev] redirect link and no
    package link is left to the browser, for every target protocol and
    every reply of the native host. *)
Theorem ordinary_link_untouched
    (P : Web.Platform) (targetProtocol : string) (reply : Content.HostReply) (href : string) :
  Content.isVSCodeUrl href = false ->
  Content.isVSCodeDevRedirectUrl href = false ->
  Content.isVsixUrl P href = JS.Normal false ->
  Content.handleClick P targetProtocol reply href = JS.Normal Content.PassThrough.
Proof.
  intros Hide Hdev Hvsix. unfold Content.handleClick.
  destruct (Content.isAuthCallbackUrl href); [reflexivity|].
  assert (Hother : Content.handleOther P targetProtocol href = JS.Normal Content.PassThrough).
  { unfold Content.handleOther. rewrite Hdev, Hvsix.
    unfold mbind, completion_bind, JS.bind, mret, completion_ret.
    destruct (Content.isMcpUrl href) eqn:Hmcp.
    - apply ThrowFacts.mcp_link_isVSCodeUrl in Hmcp. congruence.
    - unfold Content.handlePlain. now rewrite Hide. }
  destruct (Content.parseVSCodeExtensionId href) as [id|] eqn:Hid; [|exact Hother].
  apply ThrowFacts.extension_link_isVSCodeUrl in Hid. congruence.
Qed.

Lemma ordinary_link_untouched_witness :
  Content.handleClick Web.browser "cursor" Content.ReplyRejected
    "https://example.com/docs/vscode?tab=1#install"
  = JS.Normal Content.PassThrough.
Proof.
  apply (ordinary_link_untouched Web.browser "cursor" Content.ReplyRejected
           "https://example.com/docs/vscode?tab=1#install");
    vm_compute; reflexivity.
Defined.
